(** * A shallow embedding of [btc-pipeline.py]

    The program pushes a mutable context (a Python [dict]) through an ordered
    list of filters: validation, authentication, BTC-to-fiat conversion, fee
    computation and JSON persistence.

    - Python [float] is IEEE-754 binary64: Rocq's primitive [float], with
      [round(x, 2)] written out as CPython computes it ([round2]).
    - The context is a [gmap] from key to Python object; the transaction it
      holds is mutated in place by validation, so a failing filter hands back
      the context as it left it ([Raised e c]).
    - The outside world is explicit state: the files of the storage medium and
      the number of clock readings taken so far.
    - What the interpreter supplies ([str.upper], [str.strip], the wall clock,
      [os.path.abspath]) is a [Runtime], over which every result is generic.
    - Console output ([print]) is not modelled; failures of the medium itself
      (permissions, a full disk) are not modelled either.
    - A numeric [btc_amount] stands as its float value: an amount that is
      not a number, or an integer too large for a float, is outside the model.
    - Every [value] is JSON data that [json.dump] writes: an object that is
      not JSON data, or an integer too long to print, is outside the model, and
      so is the failure of [json.dump] on a directory profile that holds one. *)

From Stdlib Require Import ZArith Ascii String PrimFloat SpecFloat FloatOps FloatAxioms.
From stdpp Require Import gmap strings list.

Set Warnings "-inexact-float,-register-all".
Local Open Scope Z_scope.

(** ** Python values *)

(** The values the program builds, stores in the context and serialises:
    [None], [bool], [int], [float], [str], [list] and [dict] with string keys
    (kept in insertion order, as [json.dump] writes them). *)
Inductive value : Type :=
  | VNone
  | VBool (b : bool)
  | VInt (z : Z)
  | VFloat (f : float)
  | VStr (s : string)
  | VList (l : list value)
  | VDict (d : list (string * value)).

(** [bool(v)]: Python truthiness. *)
Definition truthy (v : value) : bool :=
  match v with
  | VNone => false
  | VBool b => b
  | VInt z => negb (z =? 0)
  | VFloat f => negb (f =? 0)%float
  | VStr s => negb (String.eqb s "")
  | VList l => match l with [] => false | _ => true end
  | VDict d => match d with [] => false | _ => true end
  end.

(** [isinstance(v, str)]. *)
Definition is_str (v : value) : bool :=
  match v with VStr _ => true | _ => false end.

(** ** Exceptions *)

(** [ValueError] and [PermissionError] carry the message the source gives
    them; the others are raised by the interpreter. *)
Inductive exn : Type :=
  | ValueError (msg : string)
  | PermissionError (msg : string)
  | KeyError (key : string)
  | AttributeError
  | TypeError
  | OverflowError
  | NotImplementedError
  | UnicodeDecodeError
  | RecursionError.

(** ** [round(x, 2)] on a float *)

(** [a / b] rounded to the nearest integer, ties to even ([0 < b]). *)
Definition div_half_even (a b : Z) : Z :=
  let q := a / b in
  match 2 * (a mod b) ?= b with
  | Lt => q
  | Gt => q + 1
  | Eq => if Z.even q then q else q + 1
  end.

(** The magnitude [m * 2^e] in hundredths, rounded half to even on its exact
    value. *)
Definition hundredths (m : positive) (e : Z) : Z :=
  match e with
  | Zneg p => div_half_even (Zpos m * 100) (Z.pow_pos 2 p)
  | _ => Zpos m * 100 * 2 ^ e
  end.

(** CPython's [float.__round__] with [ndigits = 2]: a NaN or an infinity is
    returned as it is; a finite [x] is printed correctly rounded to two
    decimals (half to even on the exact binary value) and the decimal read
    back, which is the double nearest to [n / 100]. *)
Definition round2 (x : float) : float :=
  match Prim2SF x with
  | S754_finite s m e =>
      match hundredths m e with
      | Zpos n => SF2Prim (SFdiv prec emax (S754_finite s n 0) (S754_finite false 100 0))
      | _ => SF2Prim (S754_zero s)
      end
  | _ => x
  end.

(** [float(z)] for a Python [int]: correctly rounded, or [OverflowError]. *)
Definition float_of_int (z : Z) : exn + float :=
  let f := SF2Prim (binary_normalize prec emax z 0 false) in
  if is_infinity f then inl OverflowError else inr f.

(** ** Data model *)

(** The [Transaction] dataclass. Python does not enforce the annotations:
    [user_id] is any value (the code checks [isinstance]), [btc_amount] is a
    float or [None] (the code checks for [None]; an amount of another type is
    not represented), [base_currency] is a [str]. *)
Record Transaction : Type := mkTransaction {
  user_id : value;
  btc_amount : option float;
  base_currency : string
}.

(** [dataclasses.asdict(tx)]. *)
Definition asdict (tx : Transaction) : value :=
  VDict [("user_id", user_id tx);
         ("btc_amount", match btc_amount tx with Some a => VFloat a | None => VNone end);
         ("base_currency", VStr (base_currency tx))].

(** What a context key can hold: the [Transaction] object or a plain value. *)
Inductive pyobj : Type :=
  | OTx (tx : Transaction)
  | OVal (v : value).

(** The processing context, [Dict[str, Any]]. *)
Abbreviation Context := (gmap string pyobj).

(** What [json.load] can raise on a file, apart from [JSONDecodeError]: the
    bytes are not UTF-8 (the read raises [UnicodeDecodeError]), the text is
    nested deeper than the parser's recursion limit ([RecursionError]), or it
    holds an integer of more digits than the interpreter converts (a plain
    [ValueError], since CPython 3.11; [digits] is the count it reports). *)
Inductive load_error : Type :=
  | UndecodableBytes
  | NestedTooDeep
  | IntegerTooLong (digits : string).

Definition load_error_exn (l : load_error) : exn :=
  match l with
  | UndecodableBytes => UnicodeDecodeError
  | NestedTooDeep => RecursionError
  | IntegerTooLong digits =>
      ValueError
        ("Exceeds the limit (4300 digits) for integer string conversion: value has "
         +:+ digits
         +:+ " digits; use sys.set_int_max_str_digits() to increase the limit")
  end.

(** The content of a file as [json.load] sees it: text that parses to a value,
    text on which it raises [JSONDecodeError], or content on which it raises
    another error. *)
Inductive file : Type :=
  | Unparsable
  | Parsed (v : value)
  | Unloadable (l : load_error).

(** The world outside the interpreter: the files by path ([None]: the path
    does not exist) and how many times the clock has been read. *)
Record World : Type := mkWorld {
  files : gmap string file;
  ticks : nat
}.

(** What the interpreter and the operating system supply. [utcnow_isoformat n]
    is the text of the [n]-th reading of [datetime.utcnow().isoformat()]. *)
Class Runtime : Type := {
  str_upper : string -> string;
  str_strip : string -> string;
  utcnow_isoformat : nat -> string;
  os_path_abspath : string -> string
}.

(** [datetime.utcnow().isoformat()]: one reading of the clock. *)
Definition utcnow `{Runtime} (w : World) : string * World :=
  (utcnow_isoformat (ticks w), mkWorld (files w) (S (ticks w))).

(** How a call of [process] ends: it returns the context, or it raises and
    leaves the context object as it was at that moment. *)
Inductive outcome : Type :=
  | Returned (c : Context)
  | Raised (e : exn) (c : Context).

Definition outcome_context (o : outcome) : Context :=
  match o with Returned c | Raised _ c => c end.

(** The [Filter] interface: [process(context)]. *)
Definition Filter : Type := Context -> World -> outcome * World.

(** The base class leaves [process] unimplemented. *)
Definition Filter_process : Filter :=
  fun context w => (Raised NotImplementedError context, w).

(** The error taxonomy, as the source raises it. *)
Definition MissingTransaction : exn := ValueError "Missing transaction in context".
Definition InvalidUser : exn := ValueError "Invalid user_id".
Definition InvalidAmount : exn := ValueError "btc_amount must be > 0".
Definition NotAuthenticated : exn := PermissionError "User not authenticated".

(** ** Filter 1: validation *)

Module ValidationFilter.

Definition SUPPORTED : list string := ["USD"; "EUR"; "GBP"].

(** [code in SUPPORTED]. *)
Definition supported (code : string) : bool :=
  existsb (String.eqb code) SUPPORTED.

(** [ValueError(f"Unsupported base currency: {tx.base_currency}")]. *)
Definition UnsupportedCurrency (code : string) : exn :=
  ValueError ("Unsupported base currency: " +:+ code).

(** [tx.base_currency.upper().strip()]. *)
Definition normalize `{Runtime} (code : string) : string :=
  str_strip (str_upper code).

Definition process `{Runtime} : Filter := fun context w =>
  match context !! "transaction" with
  | None | Some (OVal VNone) => (Raised MissingTransaction context, w)
  | Some (OVal _) => (Raised AttributeError context, w)
  | Some (OTx tx) =>
      if negb (truthy (user_id tx)) || negb (is_str (user_id tx))
      then (Raised InvalidUser context, w)
      else
        match btc_amount tx with
        | None => (Raised InvalidAmount context, w)
        | Some a =>
            if (a <=? 0)%float then (Raised InvalidAmount context, w)
            else
              let tx' := mkTransaction (user_id tx) (btc_amount tx)
                           (normalize (base_currency tx)) in
              let context1 := <["transaction" := OTx tx']> context in
              if supported (base_currency tx') then
                let (now, w') := utcnow w in
                (Returned (<["validated_at" := OVal (VStr now)]> context1), w')
              else (Raised (UnsupportedCurrency (base_currency tx')) context1, w)
        end
  end.

End ValidationFilter.

(** ** Filter 2: authentication (mock) *)

Module AuthFilter.

(** [users_db.get(key)]: a [str] key is looked up, a [list] or [dict] key is
    unhashable, any other key matches no string key. *)
Definition users_db_get (users_db : gmap string value) (key : value)
  : exn + option value :=
  match key with
  | VStr s => inr (users_db !! s)
  | VList _ | VDict _ => inl TypeError
  | _ => inr None
  end.

Definition process `{Runtime} (users_db : gmap string value) : Filter :=
  fun context w =>
  match context !! "transaction" with
  | None => (Raised (KeyError "transaction") context, w)
  | Some (OVal _) => (Raised AttributeError context, w)
  | Some (OTx tx) =>
      match users_db_get users_db (user_id tx) with
      | inl e => (Raised e context, w)
      | inr found =>
          match found with
          | Some user =>
              if truthy user then
                let context1 := <["user" := OVal user]> context in
                let (now, w') := utcnow w in
                (Returned (<["authenticated_at" := OVal (VStr now)]> context1), w')
              else (Raised NotAuthenticated context, w)
          | None => (Raised NotAuthenticated context, w)
          end
      end
  end.

End AuthFilter.

(** ** The rate service *)

Module FxService.

Record t : Type := mk {
  btc_usd : float;
  usd_to_eur : float;
  usd_to_gbp : float
}.

(** The constructor's defaults. *)
Definition default : t := mk 68000 0.92 0.78.

(** The dictionary [{"amount": ..., "fx": ...}] the conversion returns. *)
Record quote : Type := mkQuote {
  amount : float;
  fx : float
}.

(** [ValueError(f"Unsupported currency: {currency}")]. *)
Definition UnsupportedCurrency (currency : string) : exn :=
  ValueError ("Unsupported currency: " +:+ currency).

Definition btc_to_currency (self : t) (btc_amount : float) (currency : string)
  : exn + quote :=
  let usd_value := (btc_amount * btc_usd self)%float in
  if String.eqb currency "USD" then inr (mkQuote usd_value 1)
  else if String.eqb currency "EUR" then
    inr (mkQuote (usd_value * usd_to_eur self)%float (usd_to_eur self))
  else if String.eqb currency "GBP" then
    inr (mkQuote (usd_value * usd_to_gbp self)%float (usd_to_gbp self))
  else inl (UnsupportedCurrency currency).

End FxService.

(** ** Filter 3: transformation (BTC to fiat) *)

Module TransformationFilter.

(** The [fx_used] dictionary. *)
Definition fx_used (fx : FxService.t) (applied : float) : value :=
  VDict [("btc_usd", VFloat (FxService.btc_usd fx));
         ("usd_to_eur", VFloat (FxService.usd_to_eur fx));
         ("usd_to_gbp", VFloat (FxService.usd_to_gbp fx));
         ("applied", VFloat applied)].

(** A [btc_amount] of [None] fails at the product inside the service. *)
Definition process `{Runtime} (fx : FxService.t) : Filter := fun context w =>
  match context !! "transaction" with
  | None => (Raised (KeyError "transaction") context, w)
  | Some (OVal _) => (Raised AttributeError context, w)
  | Some (OTx tx) =>
      match btc_amount tx with
      | None => (Raised TypeError context, w)
      | Some a =>
          match FxService.btc_to_currency fx a (base_currency tx) with
          | inl e => (Raised e context, w)
          | inr r =>
              let context1 :=
                <["fiat_amount" := OVal (VFloat (round2 (FxService.amount r)))]> context in
              let context2 :=
                <["fx_used" := OVal (fx_used fx (FxService.fx r))]> context1 in
              let (now, w') := utcnow w in
              (Returned (<["transformed_at" := OVal (VStr now)]> context2), w')
          end
      end
  end.

End TransformationFilter.

(** ** Filter 4: fee computation *)

Module FeeFilter.

Definition FIXED_FEE_USD : float := 5.

Definition UnsupportedCurrency : exn := ValueError "Unsupported currency for fee".

(** The fee before rounding: the [if]/[elif] chain on [tx.base_currency]. *)
Definition fee_in (fx : FxService.t) (currency : string) : exn + float :=
  if String.eqb currency "USD" then inr FIXED_FEE_USD
  else if String.eqb currency "EUR" then
    inr (FIXED_FEE_USD * FxService.usd_to_eur fx)%float
  else if String.eqb currency "GBP" then
    inr (FIXED_FEE_USD * FxService.usd_to_gbp fx)%float
  else inl UnsupportedCurrency.

(** [context["fiat_amount"] + fee] for whatever the key holds: a float adds,
    an [int] or a [bool] is converted first, anything else is a [TypeError]. *)
Definition plus_fee (fiat : pyobj) (fee : float) : exn + float :=
  match fiat with
  | OVal (VFloat a) => inr (a + fee)%float
  | OVal (VInt z) =>
      match float_of_int z with
      | inr a => inr (a + fee)%float
      | inl e => inl e
      end
  | OVal (VBool b) => inr ((if b then 1 else 0) + fee)%float
  | _ => inl TypeError
  end.

(** [round(fee, 2)]. *)
Definition rounded_fee (fx : FxService.t) (currency : string) : exn + float :=
  match fee_in fx currency with
  | inr raw => inr (round2 raw)
  | inl e => inl e
  end.

(** The specification's reading of the fee: the fixed fee times the rate the
    rate service reports as applied for the currency, rounded. *)
Definition fee_by_applied_rate (fx : FxService.t) (btc_amount : float)
    (currency : string) : exn + float :=
  match FxService.btc_to_currency fx btc_amount currency with
  | inr r => inr (round2 (FIXED_FEE_USD * FxService.fx r)%float)
  | inl e => inl e
  end.

Definition process `{Runtime} (fx : FxService.t) : Filter := fun context w =>
  match context !! "transaction" with
  | None => (Raised (KeyError "transaction") context, w)
  | Some (OVal _) => (Raised AttributeError context, w)
  | Some (OTx tx) =>
      match rounded_fee fx (base_currency tx) with
      | inl e => (Raised e context, w)
      | inr fee =>
          let context1 := <["fee" := OVal (VFloat fee)]> context in
          match context1 !! "fiat_amount" with
          | None => (Raised (KeyError "fiat_amount") context1, w)
          | Some fiat =>
              match plus_fee fiat fee with
              | inl e => (Raised e context1, w)
              | inr sum =>
                  let context2 := <["total" := OVal (VFloat (round2 sum))]> context1 in
                  let (now, w') := utcnow w in
                  (Returned (<["fee_calculated_at" := OVal (VStr now)]> context2), w')
              end
          end
      end
  end.

End FeeFilter.

(** ** Filter 5: storage (JSON) *)

Module StorageFilter.

(** [context.get(key)] as a field of the record: a missing key reads [None];
    a [Transaction] object is not JSON serialisable. *)
Definition json_field (o : option pyobj) : option value :=
  match o with
  | None => Some VNone
  | Some (OVal v) => Some v
  | Some (OTx _) => None
  end.

(** The record built for [tx] at time [now], when [json.dump] can write it:
    a [Transaction] object under one of the five keys is refused, every
    [value] is written. *)
Definition ledger_record (now : string) (tx : Transaction) (context : Context)
  : option value :=
  user ← json_field (context !! "user");
  fiat_amount ← json_field (context !! "fiat_amount");
  fee ← json_field (context !! "fee");
  total ← json_field (context !! "total");
  fx_used ← json_field (context !! "fx_used");
  Some (VDict [("timestamp", VStr now);
               ("transaction", asdict tx);
               ("user", user);
               ("fiat_amount", fiat_amount);
               ("fee", fee);
               ("total", total);
               ("fx_used", fx_used)]).

(** The list [existing] after the read: empty when the path does not exist or
    [json.load] raises [JSONDecodeError], the only error the [except] clause
    names; any other error of the load propagates. What was loaded has an
    [append] only if it is a list. *)
Definition read_existing (stored : option file) : exn + list value :=
  match stored with
  | None | Some Unparsable => inr []
  | Some (Unloadable l) => inl (load_error_exn l)
  | Some (Parsed (VList l)) => inr l
  | Some (Parsed _) => inl AttributeError
  end.

(** [record] is the ledger record of the run that ended in [o]: the snapshot,
    at some time, of the transaction and the five fields of its context. *)
Definition is_record_of (record : value) (o : outcome) : Prop :=
  exists now tx,
    outcome_context o !! "transaction" = Some (OTx tx) /\
    ledger_record now tx (outcome_context o) = Some record.

(** The clock is read first, while the record is built. A record that
    [json.dump] cannot serialise raises after the file was opened for writing,
    which leaves a truncated text behind. *)
Definition process `{Runtime} (path : string) : Filter := fun context w =>
  let (now, w1) := utcnow w in
  match context !! "transaction" with
  | None => (Raised (KeyError "transaction") context, w1)
  | Some (OVal _) => (Raised TypeError context, w1)
  | Some (OTx tx) =>
      match read_existing (files w1 !! path) with
      | inl e => (Raised e context, w1)
      | inr existing =>
          match ledger_record now tx context with
          | None =>
              (Raised TypeError context,
               mkWorld (<[path := Unparsable]> (files w1)) (ticks w1))
          | Some record =>
              let w2 := mkWorld (<[path := Parsed (VList (existing ++ [record]))]> (files w1))
                          (ticks w1) in
              let context1 := <["persisted" := OVal (VBool true)]> context in
              (Returned (<["storage_path" := OVal (VStr (os_path_abspath path))]> context1), w2)
          end
      end
  end.

End StorageFilter.

(** ** Pipeline orchestration *)

Module Pipeline.

(** The loop [for f in self.filters: context = f.process(context)]. *)
Fixpoint run_filters (filters : list Filter) (context : Context) (w : World)
  : outcome * World :=
  match filters with
  | [] => (Returned context, w)
  | f :: rest =>
      match f context w with
      | (Returned context', w') => run_filters rest context' w'
      | (Raised e c, w') => (Raised e c, w')
      end
  end.

Definition run (filters : list Filter) (context : Context) (w : World)
  : outcome * World :=
  match run_filters filters context w with
  | (Returned c, w') => (Returned (<["status" := OVal (VStr "SUCCESS")]> c), w')
  | (Raised e c, w') => (Raised e c, w')
  end.

(** The calls of [process] the loop makes, in order: the context and the
    world each filter that runs is given. *)
Fixpoint calls (filters : list Filter) (context : Context) (w : World)
  : list (Context * World) :=
  match filters with
  | [] => []
  | f :: rest =>
      (context, w) ::
      match f context w with
      | (Returned context', w') => calls rest context' w'
      | (Raised _ _, _) => []
      end
  end.

(** The specification's reading of a run that gets through [filters]: each
    stage succeeds on the output of the one before it. *)
Inductive feeds : list Filter -> Context -> World -> Context -> World -> Prop :=
  | feeds_nil c w : feeds [] c w c w
  | feeds_cons f rest c w c1 w1 c' w' :
      f c w = (Returned c1, w1) ->
      feeds rest c1 w1 c' w' ->
      feeds (f :: rest) c w c' w'.

(** Consecutive runs of one pipeline, each on a context of its own, sharing
    the world. *)
Fixpoint run_each (filters : list Filter) (contexts : list Context) (w : World)
  : list outcome * World :=
  match contexts with
  | [] => ([], w)
  | context :: rest =>
      let (o, w') := run filters context w in
      let (os, w'') := run_each filters rest w' in
      (o :: os, w'')
  end.

End Pipeline.

Definition is_Returned (o : outcome) : bool :=
  match o with Returned _ => true | Raised _ _ => false end.

(** The errors the validation and authentication stages raise by name. *)
Definition refusal (e : exn) : Prop :=
  e = MissingTransaction \/ e = InvalidUser \/ e = InvalidAmount \/
  (exists code, e = ValidationFilter.UnsupportedCurrency code) \/
  e = NotAuthenticated.

(** ** The example of the program's entry point *)

(** The pipeline the entry point builds, in its order. *)
Definition main_pipeline `{Runtime} (users_db : gmap string value)
    (fx : FxService.t) (path : string) : list Filter :=
  [ValidationFilter.process;
   AuthFilter.process users_db;
   TransformationFilter.process fx;
   FeeFilter.process fx;
   StorageFilter.process path].

Definition USERS : gmap string value :=
  <["u123" := VDict [("name", VStr "Alice"); ("kyc_level", VStr "basic")]]>
  (<["u456" := VDict [("name", VStr "Bob"); ("kyc_level", VStr "plus")]]> ∅).

Definition examples : list Transaction :=
  [mkTransaction (VStr "u123") (Some 0.01%float) "EUR";
   mkTransaction (VStr "u456") (Some 0.015%float) "USD";
   mkTransaction (VStr "u123") (Some 0.02%float) "GBP"].

(** [{"transaction": tx}]. *)
Definition initial_context (tx : Transaction) : Context :=
  <["transaction" := OTx tx]> ∅.

(** ** A runtime for ASCII text, to evaluate examples *)

Definition ascii_upper_char (c : ascii) : ascii :=
  let n := nat_of_ascii c in
  if ((97 <=? n) && (n <=? 122))%nat then ascii_of_nat (n - 32) else c.

Fixpoint ascii_upper (s : string) : string :=
  match s with
  | EmptyString => EmptyString
  | String c r => String (ascii_upper_char c) (ascii_upper r)
  end.

(** [str.isspace] on an ASCII character. *)
Definition ascii_isspace (c : ascii) : bool :=
  let n := nat_of_ascii c in
  (((9 <=? n) && (n <=? 13)) || ((28 <=? n) && (n <=? 32)))%nat.

Fixpoint ascii_lstrip (s : string) : string :=
  match s with
  | EmptyString => EmptyString
  | String c r => if ascii_isspace c then ascii_lstrip r else s
  end.

Fixpoint ascii_rstrip (s : string) : string :=
  match s with
  | EmptyString => EmptyString
  | String c r =>
      match ascii_rstrip r with
      | EmptyString => if ascii_isspace c then EmptyString else String c EmptyString
      | r' => String c r'
      end
  end.

Definition ascii_strip (s : string) : string := ascii_rstrip (ascii_lstrip s).

(** Readings of a clock that starts at midnight and advances a second each
    time it is read (for the first ten readings). *)
Definition example_clock (n : nat) : string :=
  "2024-01-01T00:00:0" +:+ String (ascii_of_nat (48 + n `mod` 10)) EmptyString.

Definition example_runtime : Runtime := {|
  str_upper := ascii_upper;
  str_strip := ascii_strip;
  utcnow_isoformat := example_clock;
  os_path_abspath := fun p => "/srv/ledger/" +:+ p
|}.

Definition empty_world : World := mkWorld ∅ 0.

(** * Results *)

(** ** Auxiliary facts *)

Lemma supported_elem_of (code : string) :
  ValidationFilter.supported code = true <-> code ∈ ValidationFilter.SUPPORTED.
Proof.
  unfold ValidationFilter.supported, ValidationFilter.SUPPORTED. simpl.
  rewrite !orb_true_iff, !String.eqb_eq, !elem_of_cons, elem_of_nil.
  intuition discriminate.
Qed.

Lemma supported_cases (code : string) :
  code ∈ ValidationFilter.SUPPORTED -> code = "USD" \/ code = "EUR" \/ code = "GBP".
Proof.
  unfold ValidationFilter.SUPPORTED.
  rewrite !elem_of_cons, elem_of_nil. tauto.
Qed.

Lemma not_supported_false (code : string) :
  code ∉ ValidationFilter.SUPPORTED -> ValidationFilter.supported code = false.
Proof.
  intros Hn. destruct (ValidationFilter.supported code) eqn:E; [|reflexivity].
  apply supported_elem_of in E. contradiction.
Qed.

(** A positive float is not [<= 0] (a NaN is neither). *)
Lemma positive_not_leb_zero (a : float) :
  (0 <? a)%float = true -> (a <=? 0)%float = false.
Proof.
  rewrite ltb_spec, leb_spec.
  change (Prim2SF 0) with (S754_zero false).
  destruct (Prim2SF a) as [s | s | | s m e]; try destruct s; cbn; congruence.
Qed.

(** A string that is not empty is truthy. *)
Lemma nonempty_truthy (s : string) : s <> "" -> truthy (VStr s) = true.
Proof.
  intros Hs. simpl. destruct (String.eqb_spec s ""); [contradiction | reflexivity].
Qed.

Lemma run_filters_feeds filters c w c' w' :
  Pipeline.run_filters filters c w = (Returned c', w') <-> Pipeline.feeds filters c w c' w'.
Proof.
  split.
  - revert c w. induction filters as [|f rest IH]; intros c w Hrun; simpl in Hrun.
    + inversion Hrun; subst. constructor.
    + destruct (f c w) as [[c1 | e c1] w1] eqn:Hf; [|discriminate].
      econstructor; eauto.
  - induction 1 as [|f rest c w c1 w1 c' w' Hf _ IH]; simpl.
    + reflexivity.
    + rewrite Hf. exact IH.
Qed.

Lemma run_filters_raises filters c w e c' w' :
  Pipeline.run_filters filters c w = (Raised e c', w') <->
  exists passed f rest c1 w1,
    filters = passed ++ f :: rest /\
    Pipeline.feeds passed c w c1 w1 /\
    f c1 w1 = (Raised e c', w').
Proof.
  split.
  - revert c w. induction filters as [|f rest IH]; intros c w Hrun; simpl in Hrun.
    + discriminate.
    + destruct (f c w) as [[c1 | e1 c1] w1] eqn:Hf.
      * destruct (IH _ _ Hrun) as (passed & g & rest' & c2 & w2 & -> & Hfeeds & Hg).
        exists (f :: passed), g, rest', c2, w2. split; [reflexivity|].
        split; [econstructor; eauto | exact Hg].
      * inversion Hrun; subst.
        exists [], f, rest, c, w. split; [reflexivity|].
        split; [constructor | exact Hf].
  - intros (passed & f & rest & c1 & w1 & -> & Hfeeds & Hf).
    induction Hfeeds as [|g rest' c w c2 w2 c3 w3 Hg _ IH]; simpl.
    + rewrite Hf. reflexivity.
    + rewrite Hg. apply IH. exact Hf.
Qed.

(** ** The rate service *)

(** C2. For every BTC amount and currency code, the conversion returns
    [btc_amount * btc_usd] with applied rate 1.0 for USD,
    [(btc_amount * btc_usd) * usd_to_eur] with applied rate [usd_to_eur] for
    EUR, [(btc_amount * btc_usd) * usd_to_gbp] with applied rate [usd_to_gbp]
    for GBP, and fails with the unsupported-currency error for every other
    code. *)
Theorem btc_to_currency_by_code (fx : FxService.t) (btc_amount : float) :
  FxService.btc_to_currency fx btc_amount "USD"
    = inr (FxService.mkQuote (btc_amount * FxService.btc_usd fx)%float 1%float) /\
  FxService.btc_to_currency fx btc_amount "EUR"
    = inr (FxService.mkQuote
             ((btc_amount * FxService.btc_usd fx) * FxService.usd_to_eur fx)%float
             (FxService.usd_to_eur fx)) /\
  FxService.btc_to_currency fx btc_amount "GBP"
    = inr (FxService.mkQuote
             ((btc_amount * FxService.btc_usd fx) * FxService.usd_to_gbp fx)%float
             (FxService.usd_to_gbp fx)) /\
  (forall code : string,
      code <> "USD" -> code <> "EUR" -> code <> "GBP" ->
      FxService.btc_to_currency fx btc_amount code
        = inl (FxService.UnsupportedCurrency code)).
Proof.
  repeat split.
  intros code Husd Heur Hgbp. unfold FxService.btc_to_currency.
  apply String.eqb_neq in Husd, Heur, Hgbp.
  rewrite Husd, Heur, Hgbp. reflexivity.
Qed.

(** With the default rates, 0.01 BTC in EUR and in an unknown currency. *)
Lemma btc_to_currency_by_code_witness :
  FxService.btc_to_currency FxService.default 0.01 "EUR"
    = inr (FxService.mkQuote (0.01 * 68000 * 0.92)%float 0.92%float) /\
  FxService.btc_to_currency FxService.default 0.01 "JPY"
    = inl (ValueError "Unsupported currency: JPY").
Proof.
  destruct (btc_to_currency_by_code FxService.default 0.01) as (_ & Heur & _ & Hother).
  split.
  - exact Heur.
  - apply (Hother "JPY"); discriminate.
Defined.

(** ** The orchestrator *)

(** C3. [run] feeds the context through the stages in order, each stage's
    output being the next one's input. It returns exactly when every stage
    succeeded, and then the context it returns is the last stage's output
    with [status = SUCCESS] set. It raises exactly when some stage raised
    after all the stages before it succeeded; what reaches the caller is that
    stage's error, context and world, untouched: no later stage runs and no
    status is written. *)
Theorem run_threads_or_aborts (filters : list Filter) (context : Context) (w : World) :
  (forall c w',
      Pipeline.run filters context w = (Returned c, w') <->
      exists c0, Pipeline.feeds filters context w c0 w' /\
                 c = <["status" := OVal (VStr "SUCCESS")]> c0) /\
  (forall e c w',
      Pipeline.run filters context w = (Raised e c, w') <->
      exists passed f rest c1 w1,
        filters = passed ++ f :: rest /\
        Pipeline.feeds passed context w c1 w1 /\
        f c1 w1 = (Raised e c, w')) /\
  (forall c w',
      Pipeline.run filters context w = (Returned c, w') ->
      c !! "status" = Some (OVal (VStr "SUCCESS"))).
Proof.
  unfold Pipeline.run.
  destruct (Pipeline.run_filters filters context w) as [[c0 | e0 c0] w0] eqn:Hrun.
  - apply run_filters_feeds in Hrun as Hfeeds.
    split; [|split].
    + intros c w'. split.
      * intros Heq. inversion Heq; subst. eauto.
      * intros (c1 & Hfeeds1 & ->).
        apply run_filters_feeds in Hfeeds1. rewrite Hrun in Hfeeds1.
        inversion Hfeeds1; subst. reflexivity.
    + intros e c w'. split; [discriminate|].
      intros Hex. apply run_filters_raises in Hex. rewrite Hrun in Hex. discriminate.
    + intros c w' Heq. inversion Heq; subst. apply lookup_insert_eq.
  - split; [|split].
    + intros c w'. split; [discriminate|].
      intros (c1 & Hfeeds1 & _).
      apply run_filters_feeds in Hfeeds1. rewrite Hrun in Hfeeds1. discriminate.
    + intros e c w'. split.
      * intros Heq. inversion Heq; subst. apply run_filters_raises. exact Hrun.
      * intros Hex. apply run_filters_raises in Hex. rewrite Hrun in Hex.
        inversion Hex; subst. reflexivity.
    + discriminate.
Qed.

(** The unknown user ["ghost"]: validation passes, authentication raises, and
    that is what the caller gets. *)
Lemma run_threads_or_aborts_witness :
  Pipeline.run
    (@main_pipeline example_runtime USERS FxService.default "transactions.json")
    (initial_context (mkTransaction (VStr "ghost") (Some 1%float) "USD")) empty_world
  = (Raised NotAuthenticated
       (<["validated_at" := OVal (VStr "2024-01-01T00:00:00")]>
          (initial_context (mkTransaction (VStr "ghost") (Some 1%float) "USD"))),
     mkWorld ∅ 1).
Proof.
  apply (proj1 (proj2 (run_threads_or_aborts
                         (@main_pipeline example_runtime USERS FxService.default
                            "transactions.json")
                         (initial_context (mkTransaction (VStr "ghost") (Some 1%float) "USD"))
                         empty_world))).
  exists [@ValidationFilter.process example_runtime],
         (@AuthFilter.process example_runtime USERS),
         [@TransformationFilter.process example_runtime FxService.default;
          @FeeFilter.process example_runtime FxService.default;
          @StorageFilter.process example_runtime "transactions.json"],
         (<["validated_at" := OVal (VStr "2024-01-01T00:00:00")]>
            (initial_context (mkTransaction (VStr "ghost") (Some 1%float) "USD"))),
         (mkWorld ∅ 1).
  split; [reflexivity|]. split.
  - econstructor; [reflexivity | constructor].
  - reflexivity.
Defined.

(** ** What each stage does when its inputs are in order *)

Lemma validation_returns `{Runtime} (context : Context) (w : World)
    (tx : Transaction) (uid : string) (a : float) :
  context !! "transaction" = Some (OTx tx) ->
  user_id tx = VStr uid -> uid <> "" ->
  btc_amount tx = Some a -> (a <=? 0)%float = false ->
  ValidationFilter.normalize (base_currency tx) ∈ ValidationFilter.SUPPORTED ->
  ValidationFilter.process context w =
    (Returned
       (<["validated_at" := OVal (VStr (utcnow_isoformat (ticks w)))]>
          (<["transaction" :=
               OTx (mkTransaction (user_id tx) (btc_amount tx)
                      (ValidationFilter.normalize (base_currency tx)))]> context)),
     mkWorld (files w) (S (ticks w))).
Proof.
  intros Htx Huid Hne Ha Hpos Hcode.
  unfold ValidationFilter.process. rewrite Htx, Huid.
  rewrite (nonempty_truthy uid Hne). simpl.
  rewrite Ha, Hpos. simpl.
  apply supported_elem_of in Hcode. rewrite Hcode. reflexivity.
Qed.

Lemma validation_rejects_currency `{Runtime} (context : Context) (w : World)
    (tx : Transaction) (uid : string) (a : float) :
  context !! "transaction" = Some (OTx tx) ->
  user_id tx = VStr uid -> uid <> "" ->
  btc_amount tx = Some a -> (a <=? 0)%float = false ->
  ValidationFilter.normalize (base_currency tx) ∉ ValidationFilter.SUPPORTED ->
  ValidationFilter.process context w =
    (Raised
       (ValidationFilter.UnsupportedCurrency
          (ValidationFilter.normalize (base_currency tx)))
       (<["transaction" :=
            OTx (mkTransaction (user_id tx) (btc_amount tx)
                   (ValidationFilter.normalize (base_currency tx)))]> context),
     w).
Proof.
  intros Htx Huid Hne Ha Hpos Hcode.
  unfold ValidationFilter.process. rewrite Htx, Huid.
  rewrite (nonempty_truthy uid Hne). simpl.
  rewrite Ha, Hpos. simpl.
  rewrite (not_supported_false _ Hcode). reflexivity.
Qed.

Lemma validation_rejects_user `{Runtime} (context : Context) (w : World)
    (tx : Transaction) :
  context !! "transaction" = Some (OTx tx) ->
  is_str (user_id tx) = false \/ user_id tx = VStr "" ->
  ValidationFilter.process context w = (Raised InvalidUser context, w).
Proof.
  intros Htx Hbad. unfold ValidationFilter.process. rewrite Htx.
  destruct Hbad as [Hns | Hempty].
  - rewrite Hns. rewrite orb_true_r. reflexivity.
  - rewrite Hempty. reflexivity.
Qed.

Lemma validation_rejects_amount `{Runtime} (context : Context) (w : World)
    (tx : Transaction) (uid : string) :
  context !! "transaction" = Some (OTx tx) ->
  user_id tx = VStr uid -> uid <> "" ->
  btc_amount tx = None \/ (exists a, btc_amount tx = Some a /\ (a <=? 0)%float = true) ->
  ValidationFilter.process context w = (Raised InvalidAmount context, w).
Proof.
  intros Htx Huid Hne Hbad. unfold ValidationFilter.process. rewrite Htx, Huid.
  rewrite (nonempty_truthy uid Hne). simpl.
  destruct Hbad as [Hnone | (a & Ha & Hle)].
  - rewrite Hnone. reflexivity.
  - rewrite Ha, Hle. reflexivity.
Qed.

(** Whatever validation does, it writes no key but ["transaction"] and
    ["validated_at"], and it leaves the files alone. *)
Lemma validation_frame `{Runtime} (context : Context) (w : World) (key : string) :
  key <> "transaction" -> key <> "validated_at" ->
  outcome_context (ValidationFilter.process context w).1 !! key = context !! key /\
  files (ValidationFilter.process context w).2 = files w.
Proof.
  intros Hk1 Hk2. unfold ValidationFilter.process.
  destruct (context !! "transaction") as [[tx | v] |] eqn:Htx; simpl.
  - destruct (negb (truthy (user_id tx)) || negb (is_str (user_id tx))); simpl; [done|].
    destruct (btc_amount tx) as [a|]; simpl; [|done].
    destruct (a <=? 0)%float; simpl; [done|].
    destruct (ValidationFilter.supported _); simpl.
    + rewrite !lookup_insert_ne by done. done.
    + rewrite !lookup_insert_ne by done. done.
  - destruct v; done.
  - done.
Qed.

(** ** Validation *)

(** C4. Validation applies its rules in order. A missing transaction fails
    with [MissingTransaction]. Then an empty or non-string [user_id] fails
    with [InvalidUser]. Then a missing or non-positive [btc_amount] fails
    with [InvalidAmount]. Then the currency code is upper-cased and trimmed
    in the transaction itself, and a code outside USD, EUR, GBP fails with
    the unsupported-currency error, the transaction already holding the
    normalized code. Otherwise the context gains the validation timestamp
    and its transaction holds the normalized code. *)
Theorem validation_rules_in_order `{Runtime} (context : Context) (w : World) :
  (context !! "transaction" = None \/ context !! "transaction" = Some (OVal VNone) ->
   ValidationFilter.process context w = (Raised MissingTransaction context, w)) /\
  (forall tx,
      context !! "transaction" = Some (OTx tx) ->
      is_str (user_id tx) = false \/ user_id tx = VStr "" ->
      ValidationFilter.process context w = (Raised InvalidUser context, w)) /\
  (forall tx uid,
      context !! "transaction" = Some (OTx tx) ->
      user_id tx = VStr uid -> uid <> "" ->
      btc_amount tx = None \/
        (exists a, btc_amount tx = Some a /\ (a <=? 0)%float = true) ->
      ValidationFilter.process context w = (Raised InvalidAmount context, w)) /\
  (forall tx uid a,
      context !! "transaction" = Some (OTx tx) ->
      user_id tx = VStr uid -> uid <> "" ->
      btc_amount tx = Some a -> (a <=? 0)%float = false ->
      let code := ValidationFilter.normalize (base_currency tx) in
      let normalized :=
        <["transaction" := OTx (mkTransaction (user_id tx) (btc_amount tx) code)]> context in
      (code ∉ ValidationFilter.SUPPORTED ->
       ValidationFilter.process context w =
         (Raised (ValidationFilter.UnsupportedCurrency code) normalized, w)) /\
      (code ∈ ValidationFilter.SUPPORTED ->
       ValidationFilter.process context w =
         (Returned
            (<["validated_at" := OVal (VStr (utcnow_isoformat (ticks w)))]> normalized),
          mkWorld (files w) (S (ticks w))))).
Proof.
  split; [|split; [|split]].
  - intros [Hnone | Hnone]; unfold ValidationFilter.process; rewrite Hnone; reflexivity.
  - intros tx Htx Hbad. eapply validation_rejects_user; eauto.
  - intros tx uid Htx Huid Hne Hbad. eapply validation_rejects_amount; eauto.
  - intros tx uid a Htx Huid Hne Ha Hpos code normalized. split; intros Hcode.
    + eapply validation_rejects_currency; eauto.
    + eapply validation_returns; eauto.
Qed.

(** The currency ["eur "] of a valid transaction is normalized to ["EUR"] and
    accepted; ["yen"] is normalized to ["YEN"] and refused. *)
Lemma validation_rules_in_order_witness :
  @ValidationFilter.process example_runtime
     (initial_context (mkTransaction (VStr "u123") (Some 0.01%float) "eur ")) empty_world
  = (Returned
       (<["validated_at" := OVal (VStr "2024-01-01T00:00:00")]>
          (<["transaction" := OTx (mkTransaction (VStr "u123") (Some 0.01%float) "EUR")]>
             (initial_context (mkTransaction (VStr "u123") (Some 0.01%float) "eur ")))),
     mkWorld ∅ 1) /\
  @ValidationFilter.process example_runtime
     (initial_context (mkTransaction (VStr "u123") (Some 0.01%float) "yen")) empty_world
  = (Raised (ValueError "Unsupported base currency: YEN")
       (<["transaction" := OTx (mkTransaction (VStr "u123") (Some 0.01%float) "YEN")]>
          (initial_context (mkTransaction (VStr "u123") (Some 0.01%float) "yen"))),
     empty_world).
Proof.
  split.
  - refine (proj2 (proj2 (proj2 (proj2 (@validation_rules_in_order example_runtime
        (initial_context (mkTransaction (VStr "u123") (Some 0.01%float) "eur "))
        empty_world)))
        (mkTransaction (VStr "u123") (Some 0.01%float) "eur ") "u123" 0.01%float
        _ _ _ _ _) _).
    + reflexivity.
    + reflexivity.
    + discriminate.
    + reflexivity.
    + reflexivity.
    + apply supported_elem_of. reflexivity.
  - refine (proj1 (proj2 (proj2 (proj2 (@validation_rules_in_order example_runtime
        (initial_context (mkTransaction (VStr "u123") (Some 0.01%float) "yen"))
        empty_world)))
        (mkTransaction (VStr "u123") (Some 0.01%float) "yen") "u123" 0.01%float
        _ _ _ _ _) _).
    + reflexivity.
    + reflexivity.
    + discriminate.
    + reflexivity.
    + reflexivity.
    + intros Hin. apply supported_elem_of in Hin. discriminate.
Defined.

(** ** Authentication *)

Lemma auth_returns `{Runtime} (users_db : gmap string value) (context : Context)
    (w : World) (tx : Transaction) (uid : string) (profile : value) :
  context !! "transaction" = Some (OTx tx) ->
  user_id tx = VStr uid ->
  users_db !! uid = Some profile -> truthy profile = true ->
  AuthFilter.process users_db context w =
    (Returned
       (<["authenticated_at" := OVal (VStr (utcnow_isoformat (ticks w)))]>
          (<["user" := OVal profile]> context)),
     mkWorld (files w) (S (ticks w))).
Proof.
  intros Htx Huid Hfound Htruthy.
  unfold AuthFilter.process. rewrite Htx, Huid. simpl.
  rewrite Hfound, Htruthy. reflexivity.
Qed.

Lemma auth_rejects_absent `{Runtime} (users_db : gmap string value)
    (context : Context) (w : World) (tx : Transaction) (uid : string) :
  context !! "transaction" = Some (OTx tx) ->
  user_id tx = VStr uid ->
  users_db !! uid = None ->
  AuthFilter.process users_db context w = (Raised NotAuthenticated context, w).
Proof.
  intros Htx Huid Habsent.
  unfold AuthFilter.process. rewrite Htx, Huid. simpl.
  rewrite Habsent. reflexivity.
Qed.

(** When authentication raises, it has written nothing. *)
Lemma auth_raises_unchanged `{Runtime} (users_db : gmap string value)
    (context : Context) (w : World) e c w' :
  AuthFilter.process users_db context w = (Raised e c, w') ->
  c = context /\ w' = w.
Proof.
  unfold AuthFilter.process.
  destruct (context !! "transaction") as [[tx | v] |]; simpl.
  - destruct (AuthFilter.users_db_get users_db (user_id tx)) as [e' | [user |]]; simpl.
    + intros Heq. inversion Heq. done.
    + destruct (truthy user); simpl; intros Heq; inversion Heq. done.
    + intros Heq. inversion Heq. done.
  - intros Heq. inversion Heq. done.
  - intros Heq. inversion Heq. done.
Qed.

(** C10. When the directory has an entry for the [user_id] but that entry is
    falsy (an empty profile mapping), authentication still fails with
    [NotAuthenticated], and writes nothing. *)
Theorem falsy_profile_not_authenticated `{Runtime} (users_db : gmap string value)
    (context : Context) (w : World) (tx : Transaction) (uid : string)
    (profile : value) :
  context !! "transaction" = Some (OTx tx) ->
  user_id tx = VStr uid ->
  users_db !! uid = Some profile ->
  truthy profile = false ->
  AuthFilter.process users_db context w = (Raised NotAuthenticated context, w).
Proof.
  intros Htx Huid Hfound Hfalsy.
  unfold AuthFilter.process. rewrite Htx, Huid. simpl.
  rewrite Hfound, Hfalsy. reflexivity.
Qed.

(** A directory that maps ["u789"] to the empty profile [{}]. *)
Lemma falsy_profile_not_authenticated_witness :
  @AuthFilter.process example_runtime (<["u789" := VDict []]> USERS)
     (initial_context (mkTransaction (VStr "u789") (Some 1%float) "USD")) empty_world
  = (Raised NotAuthenticated
       (initial_context (mkTransaction (VStr "u789") (Some 1%float) "USD")),
     empty_world).
Proof.
  apply (@falsy_profile_not_authenticated example_runtime
           (<["u789" := VDict []]> USERS) _ _
           (mkTransaction (VStr "u789") (Some 1%float) "USD") "u789" (VDict [])).
  - reflexivity.
  - reflexivity.
  - reflexivity.
  - reflexivity.
Defined.

(** ** Validation comes first *)

Lemma first_stage_raises (f : Filter) (rest : list Filter) (context : Context)
    (w : World) e c w' :
  f context w = (Raised e c, w') ->
  Pipeline.run (f :: rest) context w = (Raised e c, w') /\
  Pipeline.calls (f :: rest) context w = [(context, w)].
Proof.
  intros Hf. unfold Pipeline.run. simpl. rewrite Hf. done.
Qed.

Lemma second_stage_raises (f g : Filter) (rest : list Filter) (context : Context)
    (w : World) c1 w1 e c w' :
  f context w = (Returned c1, w1) ->
  g c1 w1 = (Raised e c, w') ->
  Pipeline.run (f :: g :: rest) context w = (Raised e c, w') /\
  Pipeline.calls (f :: g :: rest) context w = [(context, w); (c1, w1)].
Proof.
  intros Hf Hg. unfold Pipeline.run. simpl. rewrite Hf, Hg. done.
Qed.

(** When validation returns, every rule passed. *)
Lemma validation_returned_inv `{Runtime} (context : Context) (w : World)
    (tx : Transaction) c1 w1 :
  context !! "transaction" = Some (OTx tx) ->
  ValidationFilter.process context w = (Returned c1, w1) ->
  exists uid a,
    user_id tx = VStr uid /\ uid <> "" /\
    btc_amount tx = Some a /\ (a <=? 0)%float = false /\
    ValidationFilter.normalize (base_currency tx) ∈ ValidationFilter.SUPPORTED /\
    c1 = <["validated_at" := OVal (VStr (utcnow_isoformat (ticks w)))]>
           (<["transaction" :=
                OTx (mkTransaction (user_id tx) (btc_amount tx)
                       (ValidationFilter.normalize (base_currency tx)))]> context) /\
    w1 = mkWorld (files w) (S (ticks w)).
Proof.
  intros Htx. unfold ValidationFilter.process. rewrite Htx.
  destruct (user_id tx) as [| b | z | f | uid | l | d] eqn:Huid; simpl;
    try discriminate;
    try (destruct (negb _); discriminate).
  destruct (String.eqb_spec uid "") as [-> | Hne]; simpl; [discriminate|].
  destruct (btc_amount tx) as [a|] eqn:Ha; [|discriminate].
  destruct (a <=? 0)%float eqn:Hpos; [discriminate|].
  destruct (ValidationFilter.supported _) eqn:Hcode; [|discriminate].
  intros Heq. inversion Heq; subst.
  exists uid, a. apply supported_elem_of in Hcode. done.
Qed.

(** C7. A transaction whose [btc_amount] is [<= 0], or whose normalized
    currency is outside USD, EUR, GBP, fails in validation: the run ends with
    validation's error and validation is the only stage called. In the
    pipeline's order authentication is only ever called on the context that
    validation returned. *)
Theorem validation_precedes_authentication `{Runtime} (users_db : gmap string value)
    (fx : FxService.t) (path : string) (context : Context) (w : World) :
  (forall tx,
      context !! "transaction" = Some (OTx tx) ->
      (exists a, btc_amount tx = Some a /\ (a <=? 0)%float = true) \/
        ValidationFilter.normalize (base_currency tx) ∉ ValidationFilter.SUPPORTED ->
      exists e c,
        (e = InvalidUser \/ e = InvalidAmount \/
         e = ValidationFilter.UnsupportedCurrency
               (ValidationFilter.normalize (base_currency tx))) /\
        ValidationFilter.process context w = (Raised e c, w) /\
        Pipeline.run (main_pipeline users_db fx path) context w = (Raised e c, w) /\
        Pipeline.calls (main_pipeline users_db fx path) context w = [(context, w)]) /\
  (forall c1 w1,
      Pipeline.calls (main_pipeline users_db fx path) context w !! 1%nat = Some (c1, w1) ->
      ValidationFilter.process context w = (Returned c1, w1)).
Proof.
  split.
  - intros tx Htx Hbad.
    assert (exists e c,
               (e = InvalidUser \/ e = InvalidAmount \/
                e = ValidationFilter.UnsupportedCurrency
                      (ValidationFilter.normalize (base_currency tx))) /\
               ValidationFilter.process context w = (Raised e c, w))
      as (e & c & He & Hraise).
    { destruct (is_str (user_id tx)) eqn:Hstr.
      - destruct (user_id tx) as [| b | z | f | uid | l | d] eqn:Huid; try discriminate.
        destruct (String.eqb_spec uid "") as [-> | Hne].
        + exists InvalidUser, context. split; [tauto|].
          eapply validation_rejects_user; eauto.
        + destruct (btc_amount tx) as [a|] eqn:Ha.
          * destruct (a <=? 0)%float eqn:Hle.
            -- exists InvalidAmount, context. split; [tauto|].
               eapply validation_rejects_amount; eauto.
            -- destruct Hbad as [(a' & Ha' & Hle') | Hcode]; [congruence|].
               eexists _, _. split; [right; right; reflexivity|].
               eapply validation_rejects_currency; eauto.
          * exists InvalidAmount, context. split; [tauto|].
            eapply validation_rejects_amount; eauto.
      - exists InvalidUser, context. split; [tauto|].
        eapply validation_rejects_user; eauto. }
    exists e, c. split; [exact He|]. split; [exact Hraise|].
    unfold main_pipeline. eapply first_stage_raises. exact Hraise.
  - intros c1 w1. unfold main_pipeline. simpl.
    destruct (ValidationFilter.process context w) as [[c' | e c'] w'].
    + simpl. intros Heq. inversion Heq. reflexivity.
    + simpl. discriminate.
Qed.

(** A withdrawal of [-1] BTC by a known user never reaches authentication. *)
Lemma validation_precedes_authentication_witness :
  exists e c,
    (e = InvalidUser \/ e = InvalidAmount \/
     e = ValidationFilter.UnsupportedCurrency "USD") /\
    @ValidationFilter.process example_runtime
       (initial_context (mkTransaction (VStr "u123") (Some (-1)%float) "USD")) empty_world
    = (Raised e c, empty_world) /\
    Pipeline.run (@main_pipeline example_runtime USERS FxService.default "transactions.json")
       (initial_context (mkTransaction (VStr "u123") (Some (-1)%float) "USD")) empty_world
    = (Raised e c, empty_world) /\
    Pipeline.calls (@main_pipeline example_runtime USERS FxService.default "transactions.json")
       (initial_context (mkTransaction (VStr "u123") (Some (-1)%float) "USD")) empty_world
    = [(initial_context (mkTransaction (VStr "u123") (Some (-1)%float) "USD"), empty_world)].
Proof.
  apply (proj1 (@validation_precedes_authentication example_runtime USERS
                  FxService.default "transactions.json"
                  (initial_context (mkTransaction (VStr "u123") (Some (-1)%float) "USD"))
                  empty_world)
           (mkTransaction (VStr "u123") (Some (-1)%float) "USD")).
  - reflexivity.
  - left. exists (-1)%float. split; reflexivity.
Defined.

(** ** Unknown users *)

(** C5, as the code has it. Take a transaction whose [user_id] is absent from
    the directory. The run always fails, after at most two stages
    (validation, authentication), with the files untouched and with the
    context's [fiat_amount], [fee] and [total] keys as they were; when the
    transaction passes validation, the error is [NotAuthenticated]. (A
    transaction that validation refuses fails with validation's error
    instead.) *)
Theorem absent_user_not_authenticated `{Runtime} (users_db : gmap string value)
    (fx : FxService.t) (path : string) (context : Context) (w : World)
    (tx : Transaction) :
  context !! "transaction" = Some (OTx tx) ->
  (forall uid, user_id tx = VStr uid -> users_db !! uid = None) ->
  let r := Pipeline.run (main_pipeline users_db fx path) context w in
  is_Returned r.1 = false /\
  outcome_context r.1 !! "fiat_amount" = context !! "fiat_amount" /\
  outcome_context r.1 !! "fee" = context !! "fee" /\
  outcome_context r.1 !! "total" = context !! "total" /\
  files r.2 = files w /\
  (length (Pipeline.calls (main_pipeline users_db fx path) context w) <= 2)%nat /\
  (forall c1 w1,
      ValidationFilter.process context w = (Returned c1, w1) ->
      r = (Raised NotAuthenticated c1, w1)).
Proof.
  intros Htx Habsent r. subst r.
  destruct (validation_frame context w "fiat_amount") as [Hfiat Hfiles]; [done..|].
  destruct (validation_frame context w "fee") as [Hfee _]; [done..|].
  destruct (validation_frame context w "total") as [Htotal _]; [done..|].
  destruct (ValidationFilter.process context w) as [[c1 | e c1] w1] eqn:Hval;
    simpl in Hfiat, Hfee, Htotal, Hfiles.
  - destruct (validation_returned_inv context w tx c1 w1 Htx Hval)
      as (uid & a & Huid & Hne & Ha & Hpos & Hcode & Hc1 & Hw1).
    assert (AuthFilter.process users_db c1 w1 = (Raised NotAuthenticated c1, w1)) as Hauth.
    { eapply (auth_rejects_absent users_db c1 w1 _ uid).
      - rewrite Hc1. rewrite lookup_insert_ne by done. apply lookup_insert_eq.
      - exact Huid.
      - apply Habsent. exact Huid. }
    destruct (second_stage_raises ValidationFilter.process (AuthFilter.process users_db)
                [TransformationFilter.process fx; FeeFilter.process fx;
                 StorageFilter.process path]
                context w c1 w1 _ _ _ Hval Hauth) as [Hrun Hcalls].
    unfold main_pipeline. rewrite Hrun, Hcalls. simpl.
    repeat (split; [done|]).
    intros c2 w2 Heq. inversion Heq; subst. reflexivity.
  - destruct (first_stage_raises ValidationFilter.process
                [AuthFilter.process users_db; TransformationFilter.process fx;
                 FeeFilter.process fx; StorageFilter.process path]
                context w e c1 w1 Hval) as [Hrun Hcalls].
    unfold main_pipeline. rewrite Hrun, Hcalls. simpl.
    split; [done|]. do 4 (split; [done|]). split; [lia|].
    intros c2 w2 Heq. discriminate.
Qed.

(** The user ["ghost"] with an otherwise valid transaction. *)
Lemma absent_user_not_authenticated_witness :
  let r := Pipeline.run
             (@main_pipeline example_runtime USERS FxService.default "transactions.json")
             (initial_context (mkTransaction (VStr "ghost") (Some 1%float) "USD"))
             empty_world in
  is_Returned r.1 = false /\
  outcome_context r.1 !! "fiat_amount" = None /\
  outcome_context r.1 !! "fee" = None /\
  outcome_context r.1 !! "total" = None /\
  files r.2 = ∅ /\
  r.1 = Raised NotAuthenticated (outcome_context r.1).
Proof.
  destruct (@absent_user_not_authenticated example_runtime USERS FxService.default
              "transactions.json"
              (initial_context (mkTransaction (VStr "ghost") (Some 1%float) "USD"))
              empty_world
              (mkTransaction (VStr "ghost") (Some 1%float) "USD"))
    as (Hfail & Hfiat & Hfee & Htotal & Hfiles & _ & Hauth).
  - reflexivity.
  - intros uid Huid. inversion Huid; subst. reflexivity.
  - split; [exact Hfail|]. split; [exact Hfiat|]. split; [exact Hfee|].
    split; [exact Htotal|]. split; [exact Hfiles|].
    erewrite Hauth; reflexivity.
Defined.

(** C5 as stated fails: the empty [user_id] is absent from the directory, and
    the run of an otherwise valid transaction fails with [InvalidUser], raised
    by validation, not with [NotAuthenticated]. *)
Lemma empty_user_id_fails_validation :
  USERS !! "" = None /\
  Pipeline.run
    (@main_pipeline example_runtime USERS FxService.default "transactions.json")
    (initial_context (mkTransaction (VStr "") (Some 1%float) "USD")) empty_world
  = (Raised (ValueError "Invalid user_id")
       (initial_context (mkTransaction (VStr "") (Some 1%float) "USD")),
     empty_world).
Proof.
  split; reflexivity.
Qed.

(** ** Conversion and fee *)

Lemma transformation_returns `{Runtime} (fx : FxService.t) (context : Context)
    (w : World) (tx : Transaction) (a : float) (r : FxService.quote) :
  context !! "transaction" = Some (OTx tx) ->
  btc_amount tx = Some a ->
  FxService.btc_to_currency fx a (base_currency tx) = inr r ->
  TransformationFilter.process fx context w =
    (Returned
       (<["transformed_at" := OVal (VStr (utcnow_isoformat (ticks w)))]>
          (<["fx_used" := OVal (TransformationFilter.fx_used fx (FxService.fx r))]>
             (<["fiat_amount" := OVal (VFloat (round2 (FxService.amount r)))]> context))),
     mkWorld (files w) (S (ticks w))).
Proof.
  intros Htx Ha Hr. unfold TransformationFilter.process.
  rewrite Htx, Ha, Hr. reflexivity.
Qed.

Lemma fee_returns `{Runtime} (fx : FxService.t) (context : Context) (w : World)
    (tx : Transaction) (fee fiat : float) :
  context !! "transaction" = Some (OTx tx) ->
  FeeFilter.rounded_fee fx (base_currency tx) = inr fee ->
  context !! "fiat_amount" = Some (OVal (VFloat fiat)) ->
  FeeFilter.process fx context w =
    (Returned
       (<["fee_calculated_at" := OVal (VStr (utcnow_isoformat (ticks w)))]>
          (<["total" := OVal (VFloat (round2 (fiat + fee)))]>
             (<["fee" := OVal (VFloat fee)]> context))),
     mkWorld (files w) (S (ticks w))).
Proof.
  intros Htx Hfee Hfiat. unfold FeeFilter.process.
  rewrite Htx, Hfee. rewrite lookup_insert_ne by done. rewrite Hfiat. reflexivity.
Qed.

(** Once the fee is computed it is in the context, however the stage ends. *)
Lemma fee_key_written `{Runtime} (fx : FxService.t) (context : Context) (w : World)
    (tx : Transaction) (fee : float) :
  context !! "transaction" = Some (OTx tx) ->
  FeeFilter.rounded_fee fx (base_currency tx) = inr fee ->
  outcome_context (FeeFilter.process fx context w).1 !! "fee" = Some (OVal (VFloat fee)).
Proof.
  intros Htx Hfee. unfold FeeFilter.process. rewrite Htx, Hfee.
  destruct (<["fee" := OVal (VFloat fee)]> context !! "fiat_amount") as [fiat|]; simpl.
  - destruct (FeeFilter.plus_fee fiat fee) as [e | sum]; simpl.
    + apply lookup_insert_eq.
    + rewrite !lookup_insert_ne by done. apply lookup_insert_eq.
  - apply lookup_insert_eq.
Qed.

(** The quote of the rate service for a supported code, and the fee for it. *)
Lemma supported_quote_and_fee (fx : FxService.t) (btc : float) (code : string) :
  code ∈ ValidationFilter.SUPPORTED ->
  exists r,
    FxService.btc_to_currency fx btc code = inr r /\
    (code = "USD" /\ FxService.fx r = 1%float \/
     code = "EUR" /\ FxService.fx r = FxService.usd_to_eur fx \/
     code = "GBP" /\ FxService.fx r = FxService.usd_to_gbp fx) /\
    FeeFilter.rounded_fee fx code
      = inr (round2 (FeeFilter.FIXED_FEE_USD * FxService.fx r)%float).
Proof.
  intros Hcode.
  destruct (supported_cases code Hcode) as [-> | [-> | ->]];
    eexists; (split; [reflexivity|]); simpl; (split; [tauto | reflexivity]).
Qed.

(** C6. For every currency in USD, EUR, GBP the fee that the fee stage
    computes and writes is [round(5.00 * r, 2)], where [r] is the applied
    rate (the [fx] field) that the rate service's conversion returns for that
    currency: the stage's own chain of cases agrees with the conversion's. *)
Theorem fee_uses_applied_rate `{Runtime} (fx : FxService.t) (context : Context)
    (w : World) (tx : Transaction) (btc : float) :
  context !! "transaction" = Some (OTx tx) ->
  base_currency tx ∈ ValidationFilter.SUPPORTED ->
  exists r,
    FxService.btc_to_currency fx btc (base_currency tx) = inr r /\
    FeeFilter.rounded_fee fx (base_currency tx)
      = inr (round2 (5 * FxService.fx r)%float) /\
    FeeFilter.rounded_fee fx (base_currency tx)
      = FeeFilter.fee_by_applied_rate fx btc (base_currency tx) /\
    outcome_context (FeeFilter.process fx context w).1 !! "fee"
      = Some (OVal (VFloat (round2 (5 * FxService.fx r)%float))).
Proof.
  intros Htx Hcode.
  destruct (supported_quote_and_fee fx btc (base_currency tx) Hcode) as (r & Hr & _ & Hfee).
  exists r. split; [exact Hr|]. split; [exact Hfee|]. split.
  - unfold FeeFilter.fee_by_applied_rate. rewrite Hr. exact Hfee.
  - eapply fee_key_written; eauto.
Qed.

(** The fee of a EUR transaction at the default rates. *)
Lemma fee_uses_applied_rate_witness :
  exists r,
    FxService.btc_to_currency FxService.default 0.01 "EUR" = inr r /\
    FeeFilter.rounded_fee FxService.default "EUR"
      = inr (round2 (5 * FxService.fx r)%float) /\
    FeeFilter.rounded_fee FxService.default "EUR"
      = FeeFilter.fee_by_applied_rate FxService.default 0.01 "EUR" /\
    outcome_context
      (@FeeFilter.process example_runtime FxService.default
         (<["fiat_amount" := OVal (VFloat 625.6)]>
            (initial_context (mkTransaction (VStr "u123") (Some 0.01%float) "EUR")))
         empty_world).1 !! "fee"
      = Some (OVal (VFloat (round2 (5 * FxService.fx r)%float))).
Proof.
  apply (@fee_uses_applied_rate example_runtime FxService.default
           (<["fiat_amount" := OVal (VFloat 625.6)]>
              (initial_context (mkTransaction (VStr "u123") (Some 0.01%float) "EUR")))
           empty_world
           (mkTransaction (VStr "u123") (Some 0.01%float) "EUR") 0.01%float).
  - reflexivity.
  - apply supported_elem_of. reflexivity.
Defined.

(** ** Persistence *)

Lemma storage_returns `{Runtime} (path : string) (context : Context) (w : World)
    (tx : Transaction) (existing : list value) (record : value) :
  context !! "transaction" = Some (OTx tx) ->
  StorageFilter.read_existing (files w !! path) = inr existing ->
  StorageFilter.ledger_record (utcnow_isoformat (ticks w)) tx context = Some record ->
  StorageFilter.process path context w =
    (Returned
       (<["storage_path" := OVal (VStr (os_path_abspath path))]>
          (<["persisted" := OVal (VBool true)]> context)),
     mkWorld (<[path := Parsed (VList (existing ++ [record]))]> (files w)) (S (ticks w))).
Proof.
  intros Htx Hread Hrecord. unfold StorageFilter.process. simpl.
  rewrite Htx, Hread, Hrecord. reflexivity.
Qed.

(** When the storage stage returns, it has appended one record. *)
Lemma storage_returned_inv `{Runtime} (path : string) (context : Context) (w : World)
    c w' :
  StorageFilter.process path context w = (Returned c, w') ->
  exists tx existing record,
    context !! "transaction" = Some (OTx tx) /\
    StorageFilter.read_existing (files w !! path) = inr existing /\
    StorageFilter.ledger_record (utcnow_isoformat (ticks w)) tx context = Some record /\
    c = <["storage_path" := OVal (VStr (os_path_abspath path))]>
          (<["persisted" := OVal (VBool true)]> context) /\
    w' = mkWorld (<[path := Parsed (VList (existing ++ [record]))]> (files w))
           (S (ticks w)).
Proof.
  unfold StorageFilter.process. simpl.
  destruct (context !! "transaction") as [[tx | v] |] eqn:Htx; [|discriminate..].
  destruct (StorageFilter.read_existing (files w !! path)) as [e | existing] eqn:Hread;
    [discriminate|].
  destruct (StorageFilter.ledger_record _ tx context) as [record|] eqn:Hrecord;
    [|discriminate].
  intros Heq. inversion Heq; subst. exists tx, existing, record. done.
Qed.

(** The storage stage writes no key but ["persisted"] and ["storage_path"]. *)
Lemma storage_frame `{Runtime} (path : string) (context : Context) (w : World)
    (key : string) :
  key <> "persisted" -> key <> "storage_path" ->
  outcome_context (StorageFilter.process path context w).1 !! key = context !! key.
Proof.
  intros Hk1 Hk2. unfold StorageFilter.process. simpl.
  destruct (context !! "transaction") as [[tx | v] |]; [|done..].
  destruct (StorageFilter.read_existing (files w !! path)) as [e | existing]; [done|].
  destruct (StorageFilter.ledger_record _ tx context) as [record|]; simpl; [|done].
  rewrite !lookup_insert_ne by done. done.
Qed.

(** The record depends on five keys of the context only. *)
Lemma ledger_record_insert (now : string) (tx : Transaction) (context : Context)
    (key : string) (o : pyobj) :
  key <> "user" -> key <> "fiat_amount" -> key <> "fee" -> key <> "total" ->
  key <> "fx_used" ->
  StorageFilter.ledger_record now tx (<[key := o]> context)
    = StorageFilter.ledger_record now tx context.
Proof.
  intros. unfold StorageFilter.ledger_record.
  rewrite !lookup_insert_ne by done. reflexivity.
Qed.

(** C9, as the code has it. When the store is missing, or its text is not
    valid JSON (the load raises [JSONDecodeError]), the persistence stage
    does not fail: it takes the existing sequence to be empty, appends its
    record and returns, and the store then holds exactly that one record
    (every other file is as it was). When the load raises any other error
    (bytes that are not UTF-8, text nested too deep, an integer too long),
    the stage fails with that error, after reading the clock, and leaves the
    context and the store as they were. *)
Theorem storage_tolerates_bad_store `{Runtime} (path : string) (context : Context)
    (w : World) (tx : Transaction) :
  context !! "transaction" = Some (OTx tx) ->
  (forall record,
      StorageFilter.ledger_record (utcnow_isoformat (ticks w)) tx context = Some record ->
      files w !! path = None \/ files w !! path = Some Unparsable ->
      StorageFilter.read_existing (files w !! path) = inr [] /\
      exists w',
        StorageFilter.process path context w =
          (Returned
             (<["storage_path" := OVal (VStr (os_path_abspath path))]>
                (<["persisted" := OVal (VBool true)]> context)),
           w') /\
        files w' !! path = Some (Parsed (VList [record])) /\
        (forall other, other <> path -> files w' !! other = files w !! other)) /\
  (forall l,
      files w !! path = Some (Unloadable l) ->
      StorageFilter.process path context w =
        (Raised (load_error_exn l) context, mkWorld (files w) (S (ticks w)))).
Proof.
  intros Htx. split.
  - intros record Hrecord Hstore.
    assert (StorageFilter.read_existing (files w !! path) = inr []) as Hread.
    { destruct Hstore as [-> | ->]; reflexivity. }
    split; [exact Hread|].
    eexists. split.
    + eapply storage_returns; eauto.
    + simpl. split.
      * apply lookup_insert_eq.
      * intros other Hne. apply lookup_insert_ne. congruence.
  - intros l Hstore. unfold StorageFilter.process. simpl.
    rewrite Htx, Hstore. reflexivity.
Qed.

(** A store holding text that is not JSON, and the record of a EUR
    transaction after conversion and fee. *)
Lemma storage_tolerates_bad_store_witness :
  exists record w',
    StorageFilter.ledger_record "2024-01-01T00:00:00"
      (mkTransaction (VStr "u123") (Some 0.01%float) "EUR")
      (<["total" := OVal (VFloat 630.2)]>
         (initial_context (mkTransaction (VStr "u123") (Some 0.01%float) "EUR")))
      = Some record /\
    (@StorageFilter.process example_runtime "transactions.json"
       (<["total" := OVal (VFloat 630.2)]>
          (initial_context (mkTransaction (VStr "u123") (Some 0.01%float) "EUR")))
       (mkWorld (<["transactions.json" := Unparsable]> ∅) 0)).2 = w' /\
    files w' !! "transactions.json" = Some (Parsed (VList [record])).
Proof.
  assert (<["total" := OVal (VFloat 630.2)]>
            (initial_context (mkTransaction (VStr "u123") (Some 0.01%float) "EUR"))
            !! "transaction"
          = Some (OTx (mkTransaction (VStr "u123") (Some 0.01%float) "EUR"))) as Htx
    by reflexivity.
  edestruct (proj1 (@storage_tolerates_bad_store example_runtime "transactions.json"
               (<["total" := OVal (VFloat 630.2)]>
                  (initial_context (mkTransaction (VStr "u123") (Some 0.01%float) "EUR")))
               (mkWorld (<["transactions.json" := Unparsable]> ∅) 0)
               (mkTransaction (VStr "u123") (Some 0.01%float) "EUR") Htx))
    as (_ & w' & Hrun & Hstored & _).
  - reflexivity.
  - right. reflexivity.
  - eexists _, w'. split; [reflexivity|]. split.
    + rewrite Hrun. reflexivity.
    + exact Hstored.
Defined.

(** C9 as stated fails: a store whose bytes are not UTF-8 is not treated as
    empty. The read raises [UnicodeDecodeError], which the [except] clause
    does not name: the stage fails, with the store as it was. *)
Lemma undecodable_store_fails :
  @StorageFilter.process example_runtime "transactions.json"
    (<["total" := OVal (VFloat 630.2)]>
       (initial_context (mkTransaction (VStr "u123") (Some 0.01%float) "EUR")))
    (mkWorld (<["transactions.json" := Unloadable UndecodableBytes]> ∅) 0)
  = (Raised UnicodeDecodeError
       (<["total" := OVal (VFloat 630.2)]>
          (initial_context (mkTransaction (VStr "u123") (Some 0.01%float) "EUR"))),
     mkWorld (<["transactions.json" := Unloadable UndecodableBytes]> ∅) 1).
Proof.
  reflexivity.
Qed.

(** ** The sink across runs *)

Lemma validation_files `{Runtime} (context : Context) (w : World) :
  files (ValidationFilter.process context w).2 = files w.
Proof.
  apply (validation_frame context w "status"); done.
Qed.

Lemma auth_files `{Runtime} (users_db : gmap string value) (context : Context)
    (w : World) :
  files (AuthFilter.process users_db context w).2 = files w.
Proof.
  unfold AuthFilter.process.
  destruct (context !! "transaction") as [[tx | v] |]; simpl; [|done..].
  destruct (AuthFilter.users_db_get users_db (user_id tx)) as [e | [user |]];
    simpl; [done| |done].
  destruct (truthy user); done.
Qed.

Lemma transformation_files `{Runtime} (fx : FxService.t) (context : Context)
    (w : World) :
  files (TransformationFilter.process fx context w).2 = files w.
Proof.
  unfold TransformationFilter.process.
  destruct (context !! "transaction") as [[tx | v] |]; simpl; [|done..].
  destruct (btc_amount tx) as [a|]; simpl; [|done].
  destruct (FxService.btc_to_currency fx a (base_currency tx)); done.
Qed.

Lemma fee_files `{Runtime} (fx : FxService.t) (context : Context) (w : World) :
  files (FeeFilter.process fx context w).2 = files w.
Proof.
  unfold FeeFilter.process.
  destruct (context !! "transaction") as [[tx | v] |]; simpl; [|done..].
  destruct (FeeFilter.rounded_fee fx (base_currency tx)) as [e | fee]; simpl; [done|].
  destruct (_ !! "fiat_amount") as [fiat|]; simpl; [|done].
  destruct (FeeFilter.plus_fee fiat fee); done.
Qed.

(** A run of the whole pipeline that returns has appended its record to what
    the sink held. *)
Lemma run_appends `{Runtime} (users_db : gmap string value) (fx : FxService.t)
    (path : string) (context : Context) (w : World) (held : list value) c w' :
  StorageFilter.read_existing (files w !! path) = inr held ->
  Pipeline.run (main_pipeline users_db fx path) context w = (Returned c, w') ->
  exists record,
    StorageFilter.read_existing (files w' !! path) = inr (held ++ [record]) /\
    StorageFilter.is_record_of record (Returned c).
Proof.
  intros Hheld. unfold Pipeline.run, main_pipeline. simpl.
  pose proof (validation_files context w) as F1.
  destruct (ValidationFilter.process context w) as [[c1 | e1 c1] w1]; [|discriminate].
  pose proof (auth_files users_db c1 w1) as F2.
  destruct (AuthFilter.process users_db c1 w1) as [[c2 | e2 c2] w2]; [|discriminate].
  pose proof (transformation_files fx c2 w2) as F3.
  destruct (TransformationFilter.process fx c2 w2) as [[c3 | e3 c3] w3]; [|discriminate].
  pose proof (fee_files fx c3 w3) as F4.
  destruct (FeeFilter.process fx c3 w3) as [[c4 | e4 c4] w4]; [|discriminate].
  destruct (StorageFilter.process path c4 w4) as [[c5 | e5 c5] w5] eqn:Hstore;
    [|discriminate].
  intros Heq. inversion Heq; subst. simpl in *.
  destruct (storage_returned_inv path c4 w4 c5 w' Hstore)
    as (tx & existing & record & Htx & Hread & Hrecord & -> & ->).
  assert (files w4 = files w) as Hfiles by congruence.
  rewrite Hfiles, Hheld in Hread. inversion Hread; subst.
  exists record. split.
  - simpl. rewrite lookup_insert_eq. reflexivity.
  - exists (utcnow_isoformat (ticks w4)), tx. simpl. split.
    + rewrite !lookup_insert_ne by done. exact Htx.
    + rewrite !ledger_record_insert by done. exact Hrecord.
Qed.

Lemma run_each_appends `{Runtime} (users_db : gmap string value) (fx : FxService.t)
    (path : string) (contexts : list Context) :
  forall (w : World) (held : list value),
    StorageFilter.read_existing (files w !! path) = inr held ->
    Forall (fun o => is_Returned o = true)
      (Pipeline.run_each (main_pipeline users_db fx path) contexts w).1 ->
    exists records,
      StorageFilter.read_existing
        (files (Pipeline.run_each (main_pipeline users_db fx path) contexts w).2 !! path)
        = inr (held ++ records) /\
      length records = length contexts /\
      Forall2 StorageFilter.is_record_of records
        (Pipeline.run_each (main_pipeline users_db fx path) contexts w).1 /\
      (forall k,
          StorageFilter.read_existing
            (files (Pipeline.run_each (main_pipeline users_db fx path)
                      (take k contexts) w).2 !! path)
          = inr (held ++ take k records)).
Proof.
  induction contexts as [|context rest IH]; intros w held Hheld Hall.
  - exists []. simpl. rewrite app_nil_r. repeat split; try done.
    intros k. rewrite !take_nil. simpl. rewrite app_nil_r. exact Hheld.
  - simpl in Hall |- *.
    destruct (Pipeline.run (main_pipeline users_db fx path) context w)
      as [o w1] eqn:Hrun.
    specialize (IH w1).
    destruct (Pipeline.run_each (main_pipeline users_db fx path) rest w1)
      as [os w2] eqn:Heach.
    simpl in Hall |- *. inversion Hall as [|? ? Ho Hos]; subst.
    destruct o as [c | e c]; [|discriminate].
    destruct (run_appends users_db fx path context w held c w1 Hheld Hrun)
      as (record & Hread1 & Hrec).
    destruct (IH (held ++ [record]) Hread1 Hos)
      as (records & Hread2 & Hlen & Hall2 & Hprefix).
    exists (record :: records). simpl in Hread2.
    rewrite <- app_assoc in Hread2. simpl in Hread2.
    split; [exact Hread2|]. split; [simpl; congruence|].
    split; [constructor; assumption|].
    intros [|k]; simpl.
    + rewrite app_nil_r. exact Hheld.
    + rewrite Hrun.
      specialize (Hprefix k).
      destruct (Pipeline.run_each (main_pipeline users_db fx path) (take k rest) w1)
        as [os' w3].
      simpl in Hprefix |- *. rewrite <- app_assoc in Hprefix. exact Hprefix.
Qed.

(** C8. After N runs of the pipeline that all succeed, against a sink that
    was empty to begin with, the sink holds exactly N records, the i-th being
    the record of the i-th run; and after the first k of those runs it held
    the first k of them, so no append changes an earlier record. *)
Theorem sink_holds_runs_in_order `{Runtime} (users_db : gmap string value)
    (fx : FxService.t) (path : string) (contexts : list Context) (w : World) :
  StorageFilter.read_existing (files w !! path) = inr [] ->
  Forall (fun o => is_Returned o = true)
    (Pipeline.run_each (main_pipeline users_db fx path) contexts w).1 ->
  exists records,
    StorageFilter.read_existing
      (files (Pipeline.run_each (main_pipeline users_db fx path) contexts w).2 !! path)
      = inr records /\
    length records = length contexts /\
    Forall2 StorageFilter.is_record_of records
      (Pipeline.run_each (main_pipeline users_db fx path) contexts w).1 /\
    (forall k,
        StorageFilter.read_existing
          (files (Pipeline.run_each (main_pipeline users_db fx path)
                    (take k contexts) w).2 !! path)
        = inr (take k records)).
Proof.
  intros Hempty Hall.
  destruct (run_each_appends users_db fx path contexts w [] Hempty Hall)
    as (records & Hread & Hlen & Hrecs & Hprefix).
  exists records. split; [exact Hread|]. split; [exact Hlen|].
  split; [exact Hrecs|]. exact Hprefix.
Qed.

(** The three transactions of the entry point, run in a world without files. *)
Lemma sink_holds_runs_in_order_witness :
  exists records,
    StorageFilter.read_existing
      (files (Pipeline.run_each
                (@main_pipeline example_runtime USERS FxService.default "transactions.json")
                (map initial_context examples) empty_world).2 !! "transactions.json")
      = inr records /\
    length records = 3%nat /\
    Forall2 StorageFilter.is_record_of records
      (Pipeline.run_each
         (@main_pipeline example_runtime USERS FxService.default "transactions.json")
         (map initial_context examples) empty_world).1 /\
    (forall k,
        StorageFilter.read_existing
          (files (Pipeline.run_each
                    (@main_pipeline example_runtime USERS FxService.default
                       "transactions.json")
                    (take k (map initial_context examples)) empty_world).2
             !! "transactions.json")
        = inr (take k records)).
Proof.
  apply (@sink_holds_runs_in_order example_runtime USERS FxService.default
           "transactions.json" (map initial_context examples) empty_world).
  - reflexivity.
  - vm_compute. repeat constructor.
Defined.

(** ** The whole run *)

Ltac lookup_context :=
  repeat (rewrite lookup_insert_ne by done); try rewrite lookup_insert_eq.

(** The four stages before persistence, on a valid transaction of a known
    user: what they return and what the context then holds. *)
Lemma run_before_storage `{Runtime} (users_db : gmap string value) (fx : FxService.t)
    (context : Context) (w : World) (tx : Transaction) (uid : string) (a : float)
    (profile : value) (q : FxService.quote) (fee : float) :
  context !! "transaction" = Some (OTx tx) ->
  user_id tx = VStr uid -> uid <> "" ->
  btc_amount tx = Some a -> (a <=? 0)%float = false ->
  ValidationFilter.normalize (base_currency tx) ∈ ValidationFilter.SUPPORTED ->
  users_db !! uid = Some profile -> truthy profile = true ->
  FxService.btc_to_currency fx a (ValidationFilter.normalize (base_currency tx)) = inr q ->
  FeeFilter.rounded_fee fx (ValidationFilter.normalize (base_currency tx)) = inr fee ->
  exists c4,
    Pipeline.run_filters
      [ValidationFilter.process; AuthFilter.process users_db;
       TransformationFilter.process fx; FeeFilter.process fx] context w
    = (Returned c4, mkWorld (files w) (4 + ticks w)) /\
    c4 !! "transaction"
      = Some (OTx (mkTransaction (user_id tx) (btc_amount tx)
                     (ValidationFilter.normalize (base_currency tx)))) /\
    c4 !! "user" = Some (OVal profile) /\
    c4 !! "fiat_amount" = Some (OVal (VFloat (round2 (FxService.amount q)))) /\
    c4 !! "fx_used" = Some (OVal (TransformationFilter.fx_used fx (FxService.fx q))) /\
    c4 !! "fee" = Some (OVal (VFloat fee)) /\
    c4 !! "total"
      = Some (OVal (VFloat (round2 (round2 (FxService.amount q) + fee)%float))).
Proof.
  intros Htx Huid Hne Ha Hpos Hcode Hfound Htruthy Hq Hfee.
  set (tx1 := mkTransaction (user_id tx) (btc_amount tx)
                (ValidationFilter.normalize (base_currency tx))).
  pose proof (validation_returns context w tx uid a Htx Huid Hne Ha Hpos Hcode) as Hval.
  fold tx1 in Hval.
  set (c1 := <["validated_at" := _]> _) in Hval.
  set (w1 := mkWorld _ _) in Hval.
  assert (c1 !! "transaction" = Some (OTx tx1)) as Htx1.
  { subst c1. lookup_context. reflexivity. }
  pose proof (auth_returns users_db c1 w1 tx1 uid profile Htx1 Huid Hfound Htruthy)
    as Hauth.
  set (c2 := <["authenticated_at" := _]> _) in Hauth.
  set (w2 := mkWorld _ _) in Hauth.
  assert (c2 !! "transaction" = Some (OTx tx1)) as Htx2.
  { subst c2. lookup_context. exact Htx1. }
  pose proof (transformation_returns fx c2 w2 tx1 a q Htx2 Ha Hq) as Htrans.
  set (c3 := <["transformed_at" := _]> _) in Htrans.
  set (w3 := mkWorld _ _) in Htrans.
  assert (c3 !! "transaction" = Some (OTx tx1)) as Htx3.
  { subst c3. lookup_context. exact Htx2. }
  assert (c3 !! "fiat_amount" = Some (OVal (VFloat (round2 (FxService.amount q)))))
    as Hfiat3.
  { subst c3. lookup_context. reflexivity. }
  pose proof (fee_returns fx c3 w3 tx1 fee _ Htx3 Hfee Hfiat3) as Hfeest.
  set (c4 := <["fee_calculated_at" := _]> _) in Hfeest.
  exists c4. split.
  - simpl. rewrite Hval, Hauth, Htrans, Hfeest. reflexivity.
  - subst c4. repeat split; lookup_context; try reflexivity; try assumption.
    + subst c3. lookup_context. subst c2. lookup_context. reflexivity.
    + subst c3. lookup_context. reflexivity.
Qed.

(** C1, as the code has it. For a transaction with [btc_amount > 0] and a
    currency in USD, EUR, GBP whose user passes authentication, the context
    after the run holds [fee = round(5.00 * applied_rate, 2)], the applied
    rate being 1.0 for USD, [usd_to_eur] for EUR and [usd_to_gbp] for GBP,
    the converted amount rounded to two decimals, and
    [total = round(fiat_amount + fee, 2)], all three rounded by the same
    [round]; and the run returns with [status = SUCCESS] whenever the sink can
    be read. (The floating-point sum [fiat_amount + fee] itself need not equal
    [total].) *)
Theorem run_fee_and_total `{Runtime} (users_db : gmap string value)
    (fx : FxService.t) (path : string) (context : Context) (w : World)
    (tx : Transaction) (uid : string) (a : float) (profile : value) :
  context !! "transaction" = Some (OTx tx) ->
  user_id tx = VStr uid -> uid <> "" ->
  btc_amount tx = Some a -> (0 <? a)%float = true ->
  ValidationFilter.normalize (base_currency tx) ∈ ValidationFilter.SUPPORTED ->
  users_db !! uid = Some profile -> truthy profile = true ->
  let code := ValidationFilter.normalize (base_currency tx) in
  let r := Pipeline.run (main_pipeline users_db fx path) context w in
  exists q,
    FxService.btc_to_currency fx a code = inr q /\
    (code = "USD" /\ FxService.fx q = 1%float \/
     code = "EUR" /\ FxService.fx q = FxService.usd_to_eur fx \/
     code = "GBP" /\ FxService.fx q = FxService.usd_to_gbp fx) /\
    let fiat_amount := round2 (FxService.amount q) in
    let fee := round2 (5 * FxService.fx q)%float in
    outcome_context r.1 !! "fiat_amount" = Some (OVal (VFloat fiat_amount)) /\
    outcome_context r.1 !! "fee" = Some (OVal (VFloat fee)) /\
    outcome_context r.1 !! "total"
      = Some (OVal (VFloat (round2 (fiat_amount + fee)%float))) /\
    (forall held,
        StorageFilter.read_existing (files w !! path) = inr held ->
        is_Returned r.1 = true /\
        outcome_context r.1 !! "status" = Some (OVal (VStr "SUCCESS"))).
Proof.
  intros Htx Huid Hne Ha Hpos Hcode Hfound Htruthy code r.
  apply positive_not_leb_zero in Hpos.
  destruct (supported_quote_and_fee fx a code Hcode) as (q & Hq & Hrate & Hfee).
  destruct (run_before_storage users_db fx context w tx uid a profile q _
              Htx Huid Hne Ha Hpos Hcode Hfound Htruthy Hq Hfee)
    as (c4 & Hrun4 & Htx4 & Huser4 & Hfiat4 & Hfx4 & Hfee4 & Htotal4).
  exists q. split; [exact Hq|]. split; [exact Hrate|].
  intros fiat_amount fee.
  assert (r = match StorageFilter.process path c4 (mkWorld (files w) (4 + ticks w)) with
              | (Returned c, w') =>
                  (Returned (<["status" := OVal (VStr "SUCCESS")]> c), w')
              | (Raised e c, w') => (Raised e c, w')
              end) as Hr.
  { subst r. unfold Pipeline.run, main_pipeline.
    simpl in Hrun4 |- *.
    destruct (ValidationFilter.process context w) as [[c1 | e1 c1] w1]; [|discriminate].
    destruct (AuthFilter.process users_db c1 w1) as [[c2 | e2 c2] w2]; [|discriminate].
    destruct (TransformationFilter.process fx c2 w2) as [[c3 | e3 c3] w3];
      [|discriminate].
    destruct (FeeFilter.process fx c3 w3) as [[c4' | e4 c4'] w4]; [|discriminate].
    inversion Hrun4; subst.
    destruct (StorageFilter.process path c4 _) as [[c5 | e5 c5] w5]; reflexivity. }
  pose proof (storage_frame path c4 (mkWorld (files w) (4 + ticks w)) "fiat_amount")
    as Kfiat.
  pose proof (storage_frame path c4 (mkWorld (files w) (4 + ticks w)) "fee") as Kfee.
  pose proof (storage_frame path c4 (mkWorld (files w) (4 + ticks w)) "total")
    as Ktotal.
  assert (forall key, key <> "status" ->
            outcome_context r.1 !! key
            = outcome_context
                (StorageFilter.process path c4 (mkWorld (files w) (4 + ticks w))).1 !! key)
    as Kstatus.
  { intros key Hkey. rewrite Hr.
    destruct (StorageFilter.process path c4 _) as [[c5 | e5 c5] w5]; simpl.
    - rewrite lookup_insert_ne by done. reflexivity.
    - reflexivity. }
  split; [rewrite Kstatus, Kfiat by done; exact Hfiat4|].
  split; [rewrite Kstatus, Kfee by done; exact Hfee4|].
  split; [rewrite Kstatus, Ktotal by done; exact Htotal4|].
  intros held Hheld.
  assert (exists record,
             StorageFilter.ledger_record
               (utcnow_isoformat (ticks (mkWorld (files w) (4 + ticks w))))
               (mkTransaction (user_id tx) (btc_amount tx) code) c4 = Some record)
    as (record & Hrecord).
  { unfold StorageFilter.ledger_record.
    rewrite Huser4, Hfiat4, Hfx4, Hfee4, Htotal4. simpl. eexists. reflexivity. }
  rewrite Hr.
  rewrite (storage_returns path c4 (mkWorld (files w) (4 + ticks w)) _ held record
             Htx4 Hheld Hrecord).
  simpl. split; [reflexivity|]. apply lookup_insert_eq.
Qed.

(** The second transaction of the entry point: 0.015 BTC in USD for ["u456"]
    gives 1020.00, a fee of 5.00 and a total of 1025.00. *)
Lemma run_fee_and_total_witness :
  let r := Pipeline.run
             (@main_pipeline example_runtime USERS FxService.default "transactions.json")
             (initial_context (mkTransaction (VStr "u456") (Some 0.015%float) "USD"))
             empty_world in
  outcome_context r.1 !! "fiat_amount" = Some (OVal (VFloat 1020)) /\
  outcome_context r.1 !! "fee" = Some (OVal (VFloat 5)) /\
  outcome_context r.1 !! "total" = Some (OVal (VFloat 1025)) /\
  is_Returned r.1 = true /\
  outcome_context r.1 !! "status" = Some (OVal (VStr "SUCCESS")).
Proof.
  intros r.
  destruct (@run_fee_and_total example_runtime USERS FxService.default
              "transactions.json"
              (initial_context (mkTransaction (VStr "u456") (Some 0.015%float) "USD"))
              empty_world
              (mkTransaction (VStr "u456") (Some 0.015%float) "USD")
              "u456" 0.015%float
              (VDict [("name", VStr "Bob"); ("kyc_level", VStr "plus")]))
    as (q & Hq & _ & Hfiat & Hfee & Htotal & Hok).
  - reflexivity.
  - reflexivity.
  - discriminate.
  - reflexivity.
  - reflexivity.
  - apply supported_elem_of. reflexivity.
  - reflexivity.
  - reflexivity.
  - inversion Hq; subst q. clear Hq.
    destruct (Hok [] eq_refl) as [Hret Hstatus].
    split; [exact Hfiat|]. split; [exact Hfee|]. split; [exact Htotal|].
    split; [exact Hret | exact Hstatus].
Defined.

(** C1 as stated fails on the equality with the unrounded sum: 0.005 BTC in
    EUR at the default rates gives [fiat_amount = 312.8] and [fee = 4.6],
    whose floating-point sum is 317.40000000000003, while the run stores
    [total = round(317.40000000000003, 2) = 317.4]; the two are different
    floats. *)
Lemma total_differs_from_unrounded_sum :
  let r := Pipeline.run
             (@main_pipeline example_runtime USERS FxService.default "transactions.json")
             (initial_context (mkTransaction (VStr "u123") (Some 0.005%float) "EUR"))
             empty_world in
  is_Returned r.1 = true /\
  outcome_context r.1 !! "fiat_amount" = Some (OVal (VFloat 312.8)) /\
  outcome_context r.1 !! "fee" = Some (OVal (VFloat 4.6)) /\
  outcome_context r.1 !! "total" = Some (OVal (VFloat 317.4)) /\
  (312.8 + 4.6)%float = 317.40000000000003%float /\
  (317.4 =? 312.8 + 4.6)%float = false.
Proof.
  vm_compute. repeat split.
Qed.

(** ** Worked examples *)

(** [round2] against values CPython prints: [round(2.675, 2)] is 2.67 (the
    double below 2.675), exact ties go to the even hundredth, a small negative
    number rounds to [-0.0], and 625.6 + 4.6 rounds to 630.2. *)
Example round2_examples :
  round2 2.675 = 2.67%float /\
  round2 0.125 = 0.12%float /\
  round2 0.375 = 0.38%float /\
  round2 (-0.001) = (-0)%float /\
  round2 (625.6 + 4.6) = 630.2%float /\
  round2 infinity = infinity /\
  round2 1e300 = 1e300%float.
Proof.
  vm_compute. repeat split.
Qed.

(** The specification's first example: at the rates (68000, 0.92, 0.78) the
    transaction of ["u123"] for 0.01 BTC in ["eur "] is normalized to ["EUR"]
    and gives [fiat_amount = 625.60], [fee = 4.60], [total = 630.20], with one
    record in the sink. *)
Example spec_example_eur :
  let r := Pipeline.run
             (@main_pipeline example_runtime USERS FxService.default "transactions.json")
             (initial_context (mkTransaction (VStr "u123") (Some 0.01%float) "eur "))
             empty_world in
  is_Returned r.1 = true /\
  outcome_context r.1 !! "transaction"
    = Some (OTx (mkTransaction (VStr "u123") (Some 0.01%float) "EUR")) /\
  outcome_context r.1 !! "fiat_amount" = Some (OVal (VFloat 625.6)) /\
  outcome_context r.1 !! "fee" = Some (OVal (VFloat 4.6)) /\
  outcome_context r.1 !! "total" = Some (OVal (VFloat 630.2)) /\
  outcome_context r.1 !! "status" = Some (OVal (VStr "SUCCESS")) /\
  (exists record,
      files r.2 !! "transactions.json" = Some (Parsed (VList [record]))).
Proof.
  vm_compute. repeat split. eexists. reflexivity.
Qed.

(** * Further properties of the code *)

(** ** What the loop keeps *)

(** The loop keeps every relation between a stage's input and what it leaves
    behind that is reflexive, transitive and kept by each stage, whether the
    stage returns or raises. *)
Lemma run_filters_keeps (R : Context -> World -> Context -> World -> Prop)
    (filters : list Filter) :
  (forall c w, R c w c w) ->
  (forall c1 w1 c2 w2 c3 w3, R c1 w1 c2 w2 -> R c2 w2 c3 w3 -> R c1 w1 c3 w3) ->
  Forall (fun f : Filter =>
            forall c w, R c w (outcome_context (f c w).1) (f c w).2) filters ->
  forall context w,
    R context w
      (outcome_context (Pipeline.run_filters filters context w).1)
      (Pipeline.run_filters filters context w).2.
Proof.
  intros Hrefl Htrans Hall.
  induction Hall as [|f rest Hf _ IH]; intros context w; simpl.
  - apply Hrefl.
  - specialize (Hf context w).
    destruct (f context w) as [[c1 | e c1] w1]; simpl in Hf |- *.
    + eapply Htrans; [exact Hf | apply IH].
    + exact Hf.
Qed.

Lemma run_keeps (R : Context -> World -> Context -> World -> Prop)
    (filters : list Filter) :
  (forall c w, R c w c w) ->
  (forall c1 w1 c2 w2 c3 w3, R c1 w1 c2 w2 -> R c2 w2 c3 w3 -> R c1 w1 c3 w3) ->
  (forall c w, R c w (<["status" := OVal (VStr "SUCCESS")]> c) w) ->
  Forall (fun f : Filter =>
            forall c w, R c w (outcome_context (f c w).1) (f c w).2) filters ->
  forall context w,
    R context w
      (outcome_context (Pipeline.run filters context w).1)
      (Pipeline.run filters context w).2.
Proof.
  intros Hrefl Htrans Hstatus Hall context w.
  pose proof (run_filters_keeps R filters Hrefl Htrans Hall context w) as Hloop.
  unfold Pipeline.run.
  destruct (Pipeline.run_filters filters context w) as [[c | e c] w']; simpl in *.
  - eapply Htrans; [exact Hloop | apply Hstatus].
  - exact Hloop.
Qed.

(** The keys the five stages and the orchestrator write. *)
Lemma auth_frame `{Runtime} (users_db : gmap string value) (context : Context)
    (w : World) (key : string) :
  key <> "user" -> key <> "authenticated_at" ->
  outcome_context (AuthFilter.process users_db context w).1 !! key = context !! key.
Proof.
  intros Hk1 Hk2. unfold AuthFilter.process.
  destruct (context !! "transaction") as [[tx | v] |]; simpl; [|done..].
  destruct (AuthFilter.users_db_get users_db (user_id tx)) as [e | [user |]];
    simpl; [done| |done].
  destruct (truthy user); simpl; [|done].
  rewrite !lookup_insert_ne by done. done.
Qed.

Lemma transformation_frame `{Runtime} (fx : FxService.t) (context : Context)
    (w : World) (key : string) :
  key <> "fiat_amount" -> key <> "fx_used" -> key <> "transformed_at" ->
  outcome_context (TransformationFilter.process fx context w).1 !! key = context !! key.
Proof.
  intros Hk1 Hk2 Hk3. unfold TransformationFilter.process.
  destruct (context !! "transaction") as [[tx | v] |]; simpl; [|done..].
  destruct (btc_amount tx) as [a|]; simpl; [|done].
  destruct (FxService.btc_to_currency fx a (base_currency tx)); simpl; [done|].
  rewrite !lookup_insert_ne by done. done.
Qed.

Lemma fee_frame `{Runtime} (fx : FxService.t) (context : Context) (w : World)
    (key : string) :
  key <> "fee" -> key <> "total" -> key <> "fee_calculated_at" ->
  outcome_context (FeeFilter.process fx context w).1 !! key = context !! key.
Proof.
  intros Hk1 Hk2 Hk3. unfold FeeFilter.process.
  destruct (context !! "transaction") as [[tx | v] |]; simpl; [|done..].
  destruct (FeeFilter.rounded_fee fx (base_currency tx)) as [e | fee]; simpl; [done|].
  destruct (_ !! "fiat_amount") as [fiat|]; simpl.
  - destruct (FeeFilter.plus_fee fiat fee); simpl; rewrite !lookup_insert_ne by done; done.
  - rewrite !lookup_insert_ne by done. done.
Qed.


Lemma validation_keeps_keys `{Runtime} (context : Context) (w : World) (key : string) :
  is_Some (context !! key) ->
  is_Some (outcome_context (ValidationFilter.process context w).1 !! key).
Proof.
  intros Hkey. unfold ValidationFilter.process.
  destruct (context !! "transaction") as [[tx | v] |]; simpl; [| destruct v; done | done].
  destruct (negb (truthy (user_id tx)) || negb (is_str (user_id tx))); simpl; [done|].
  destruct (btc_amount tx) as [a|]; simpl; [|done].
  destruct (a <=? 0)%float; simpl; [done|].
  destruct (ValidationFilter.supported _); simpl;
    rewrite ?lookup_insert_is_Some'; auto.
Qed.

Lemma auth_keeps_keys `{Runtime} (users_db : gmap string value) (context : Context)
    (w : World) (key : string) :
  is_Some (context !! key) ->
  is_Some (outcome_context (AuthFilter.process users_db context w).1 !! key).
Proof.
  intros Hkey. unfold AuthFilter.process.
  destruct (context !! "transaction") as [[tx | v] |]; simpl; [|done..].
  destruct (AuthFilter.users_db_get users_db (user_id tx)) as [e | [user |]];
    simpl; [done| |done].
  destruct (truthy user); simpl; [|done].
  rewrite ?lookup_insert_is_Some'; auto.
Qed.

Lemma transformation_keeps_keys `{Runtime} (fx : FxService.t) (context : Context)
    (w : World) (key : string) :
  is_Some (context !! key) ->
  is_Some (outcome_context (TransformationFilter.process fx context w).1 !! key).
Proof.
  intros Hkey. unfold TransformationFilter.process.
  destruct (context !! "transaction") as [[tx | v] |]; simpl; [|done..].
  destruct (btc_amount tx) as [a|]; simpl; [|done].
  destruct (FxService.btc_to_currency fx a (base_currency tx)); simpl; [done|].
  rewrite ?lookup_insert_is_Some'; auto.
Qed.

Lemma fee_keeps_keys `{Runtime} (fx : FxService.t) (context : Context) (w : World)
    (key : string) :
  is_Some (context !! key) ->
  is_Some (outcome_context (FeeFilter.process fx context w).1 !! key).
Proof.
  intros Hkey. unfold FeeFilter.process.
  destruct (context !! "transaction") as [[tx | v] |]; simpl; [|done..].
  destruct (FeeFilter.rounded_fee fx (base_currency tx)) as [e | fee]; simpl; [done|].
  destruct (_ !! "fiat_amount") as [fiat|]; simpl.
  - destruct (FeeFilter.plus_fee fiat fee); simpl;
      rewrite ?lookup_insert_is_Some'; auto.
  - rewrite ?lookup_insert_is_Some'; auto.
Qed.

Lemma storage_keeps_keys `{Runtime} (path : string) (context : Context) (w : World)
    (key : string) :
  is_Some (context !! key) ->
  is_Some (outcome_context (StorageFilter.process path context w).1 !! key).
Proof.
  intros Hkey. unfold StorageFilter.process. simpl.
  destruct (context !! "transaction") as [[tx | v] |]; simpl; [|done..].
  destruct (StorageFilter.read_existing (files w !! path)); simpl; [done|].
  destruct (StorageFilter.ledger_record _ tx context); simpl; [|done].
  rewrite ?lookup_insert_is_Some'; auto.
Qed.

(** Whatever its outcome, a run of the pipeline deletes no key of the context
    it was given, and leaves every key that no stage writes exactly as it
    was. *)
Theorem run_keeps_context `{Runtime} (users_db : gmap string value)
    (fx : FxService.t) (path : string) (context : Context) (w : World) :
  (forall key,
      is_Some (context !! key) ->
      is_Some (outcome_context
                 (Pipeline.run (main_pipeline users_db fx path) context w).1 !! key)) /\
  (forall key,
      key ∉ ["transaction"; "validated_at"; "user"; "authenticated_at";
              "fiat_amount"; "fx_used"; "transformed_at"; "fee"; "total";
              "fee_calculated_at"; "persisted"; "storage_path"; "status"] ->
      outcome_context (Pipeline.run (main_pipeline users_db fx path) context w).1 !! key
      = context !! key).
Proof.
  split; intros key Hkey.
  - revert Hkey.
    apply (run_keeps (fun c _ c' _ => is_Some (c !! key) -> is_Some (c' !! key))).
    + auto.
    + auto.
    + intros. rewrite lookup_insert_is_Some'. auto.
    + unfold main_pipeline. repeat constructor; intros c w0.
      * apply validation_keeps_keys.
      * apply auth_keeps_keys.
      * apply transformation_keeps_keys.
      * apply fee_keeps_keys.
      * apply storage_keeps_keys.
  - repeat (apply not_elem_of_cons in Hkey as [? Hkey]).
    apply (run_keeps (fun c _ c' _ => c' !! key = c !! key)).
    + done.
    + intros; congruence.
    + intros. rewrite lookup_insert_ne by done. done.
    + unfold main_pipeline. repeat constructor; intros c w0.
      * apply validation_frame; done.
      * apply auth_frame; done.
      * apply transformation_frame; done.
      * apply fee_frame; done.
      * apply storage_frame; done.
Qed.

(** ** Files *)

Lemma storage_other_files `{Runtime} (path : string) (context : Context) (w : World)
    (other : string) :
  other <> path ->
  files (StorageFilter.process path context w).2 !! other = files w !! other.
Proof.
  intros Hne. unfold StorageFilter.process. simpl.
  destruct (context !! "transaction") as [[tx | v] |]; simpl; [|done..].
  destruct (StorageFilter.read_existing (files w !! path)); simpl; [done|].
  destruct (StorageFilter.ledger_record _ tx context); simpl;
    rewrite lookup_insert_ne by done; done.
Qed.

(** Whatever its outcome, a run of the pipeline leaves every file other than
    its storage path as it was. *)
Theorem run_touches_one_file `{Runtime} (users_db : gmap string value)
    (fx : FxService.t) (path : string) (context : Context) (w : World)
    (other : string) :
  other <> path ->
  files (Pipeline.run (main_pipeline users_db fx path) context w).2 !! other
  = files w !! other.
Proof.
  intros Hne.
  apply (run_keeps (fun _ w0 _ w1 => files w1 !! other = files w0 !! other)).
  - done.
  - intros; congruence.
  - done.
  - unfold main_pipeline. repeat constructor; intros c w0.
    + rewrite validation_files. done.
    + rewrite auth_files. done.
    + rewrite transformation_files. done.
    + rewrite fee_files. done.
    + apply storage_other_files. done.
Qed.

(** A world with a second file, which the run does not touch. *)
Lemma run_touches_one_file_witness :
  files (Pipeline.run
           (@main_pipeline example_runtime USERS FxService.default "transactions.json")
           (initial_context (mkTransaction (VStr "u456") (Some 0.015%float) "USD"))
           (mkWorld (<["audit.log" := Unparsable]> ∅) 0)).2 !! "audit.log"
  = Some Unparsable.
Proof.
  refine (@run_touches_one_file example_runtime USERS FxService.default
            "transactions.json"
            (initial_context (mkTransaction (VStr "u456") (Some 0.015%float) "USD"))
            (mkWorld (<["audit.log" := Unparsable]> ∅) 0) "audit.log" _).
  discriminate.
Defined.

(** ** When a run succeeds, and how it can fail *)

Lemma validation_raised_inv `{Runtime} (context : Context) (w : World) e c w' :
  ValidationFilter.process context w = (Raised e c, w') ->
  w' = w /\
  (e = MissingTransaction \/ e = AttributeError \/ e = InvalidUser \/
   e = InvalidAmount \/ exists code, e = ValidationFilter.UnsupportedCurrency code).
Proof.
  unfold ValidationFilter.process.
  destruct (context !! "transaction") as [[tx | v] |].
  - destruct (negb (truthy (user_id tx)) || negb (is_str (user_id tx))).
    + intros Heq; inversion Heq; subst. tauto.
    + destruct (btc_amount tx) as [a|].
      * destruct (a <=? 0)%float.
        -- intros Heq; inversion Heq; subst. tauto.
        -- simpl. destruct (ValidationFilter.supported _).
           ++ discriminate.
           ++ intros Heq; inversion Heq; subst. split; [done|].
              do 4 right. eauto.
      * intros Heq; inversion Heq; subst. tauto.
  - destruct v; intros Heq; inversion Heq; subst; tauto.
  - intros Heq; inversion Heq; subst. tauto.
Qed.

(** The run written as the four transforming stages followed by storage. *)
Lemma main_run_unfold `{Runtime} (users_db : gmap string value) (fx : FxService.t)
    (path : string) (context : Context) (w : World) :
  Pipeline.run (main_pipeline users_db fx path) context w =
  match Pipeline.run_filters
          [ValidationFilter.process; AuthFilter.process users_db;
           TransformationFilter.process fx; FeeFilter.process fx] context w with
  | (Returned c4, w4) =>
      match StorageFilter.process path c4 w4 with
      | (Returned c, w') => (Returned (<["status" := OVal (VStr "SUCCESS")]> c), w')
      | (Raised e c, w') => (Raised e c, w')
      end
  | (Raised e c, w') => (Raised e c, w')
  end.
Proof.
  unfold Pipeline.run, main_pipeline. simpl.
  destruct (ValidationFilter.process context w) as [[c1 | e1 c1] w1]; [|reflexivity].
  destruct (AuthFilter.process users_db c1 w1) as [[c2 | e2 c2] w2]; [|reflexivity].
  destruct (TransformationFilter.process fx c2 w2) as [[c3 | e3 c3] w3];
    [|reflexivity].
  destruct (FeeFilter.process fx c3 w3) as [[c4 | e4 c4] w4]; [|reflexivity].
  destruct (StorageFilter.process path c4 w4) as [[c5 | e5 c5] w5]; reflexivity.
Qed.

(** What the read of the store can raise. *)
Lemma read_existing_error (stored : option file) e :
  StorageFilter.read_existing stored = inl e ->
  e = AttributeError \/ exists l, e = load_error_exn l.
Proof.
  destruct stored as [[| v | l] |]; simpl; try discriminate.
  - destruct v; simpl; intros Heq; inversion Heq; tauto.
  - intros Heq; inversion Heq. eauto.
Qed.

(** A refusal is none of the errors the storage stage can raise. *)
Lemma refusal_not_storage (e : exn) :
  refusal e ->
  e <> TypeError /\ e <> AttributeError /\
  (forall key, e <> KeyError key) /\ (forall l, e <> load_error_exn l).
Proof.
  intros [-> | [-> | [-> | [[code ->] | ->]]]];
    (split; [discriminate|]; split; [discriminate|]; split; [discriminate|]);
    intros [| | digits]; discriminate.
Qed.

(** The four stages before storage leave the files alone. *)
Lemma four_stages_files `{Runtime} (users_db : gmap string value) (fx : FxService.t)
    (context : Context) (w : World) :
  files (Pipeline.run_filters
           [ValidationFilter.process; AuthFilter.process users_db;
            TransformationFilter.process fx; FeeFilter.process fx] context w).2
  = files w.
Proof.
  apply (run_filters_keeps (fun _ w0 _ w1 => files w1 = files w0)).
  - done.
  - intros; congruence.
  - repeat constructor; intros c w0.
    + apply validation_files.
    + apply auth_files.
    + apply transformation_files.
    + apply fee_files.
Qed.

(** The storage stage raises before it opens the file for writing, unless
    what it raises is the [TypeError] of a record that cannot be written. *)
Lemma storage_raised_before_write `{Runtime} (path : string) (context : Context)
    (w : World) e c w' :
  StorageFilter.process path context w = (Raised e c, w') ->
  e <> TypeError ->
  files w' = files w /\
  ((exists key, e = KeyError key) \/
   StorageFilter.read_existing (files w !! path) = inl e).
Proof.
  unfold StorageFilter.process. simpl. intros Hraised Hne.
  destruct (context !! "transaction") as [[tx | v] |].
  - destruct (StorageFilter.read_existing (files w !! path)) as [e' | existing].
    + inversion Hraised; subst. tauto.
    + destruct (StorageFilter.ledger_record _ tx context); [discriminate|].
      inversion Hraised; subst. contradiction.
  - inversion Hraised; subst. contradiction.
  - inversion Hraised; subst. eauto.
Qed.

(** A valid transaction of an authenticated user: the run ends in the storage
    stage, which returns when the store can be read and raises what the read
    raises otherwise. *)
Lemma authenticated_run `{Runtime} (users_db : gmap string value) (fx : FxService.t)
    (path : string) (context : Context) (w : World) (tx : Transaction)
    (uid : string) (a : float) (profile : value) :
  context !! "transaction" = Some (OTx tx) ->
  user_id tx = VStr uid -> uid <> "" ->
  btc_amount tx = Some a -> (a <=? 0)%float = false ->
  ValidationFilter.normalize (base_currency tx) ∈ ValidationFilter.SUPPORTED ->
  users_db !! uid = Some profile -> truthy profile = true ->
  match StorageFilter.read_existing (files w !! path) with
  | inr held =>
      exists c w', Pipeline.run (main_pipeline users_db fx path) context w
                   = (Returned c, w')
  | inl e =>
      exists c w', Pipeline.run (main_pipeline users_db fx path) context w
                   = (Raised e c, w')
  end.
Proof.
  intros Htx Huid Hne Ha Hpos Hcode Hfound Htruthy.
  destruct (supported_quote_and_fee fx a _ Hcode) as (q & Hq & _ & Hfee).
  destruct (run_before_storage users_db fx context w tx uid a profile q _
              Htx Huid Hne Ha Hpos Hcode Hfound Htruthy Hq Hfee)
    as (c4 & Hrun4 & Htx4 & Huser4 & Hfiat4 & Hfx4 & Hfee4 & Htotal4).
  rewrite main_run_unfold, Hrun4.
  unfold StorageFilter.process. simpl. rewrite Htx4.
  destruct (StorageFilter.read_existing (files w !! path)) as [e | held].
  - eauto.
  - unfold StorageFilter.ledger_record.
    rewrite Huser4, Hfiat4, Hfx4, Hfee4, Htotal4. simpl. eauto.
Qed.

(** When validation has returned and the user is unknown or has a falsy
    profile, the run ends with [NotAuthenticated]. *)
Lemma unauthenticated_run `{Runtime} (users_db : gmap string value) (fx : FxService.t)
    (path : string) (context : Context) (w : World) (tx : Transaction)
    (uid : string) c1 w1 :
  context !! "transaction" = Some (OTx tx) ->
  user_id tx = VStr uid ->
  ValidationFilter.process context w = (Returned c1, w1) ->
  (forall profile, users_db !! uid = Some profile -> truthy profile = false) ->
  Pipeline.run (main_pipeline users_db fx path) context w
  = (Raised NotAuthenticated c1, w1).
Proof.
  intros Htx Huid Hval Hno.
  destruct (validation_returned_inv context w tx c1 w1 Htx Hval)
    as (uid' & a & Huid' & Hne & Ha & Hpos & Hcode & Hc1 & Hw1).
  assert (AuthFilter.process users_db c1 w1 = (Raised NotAuthenticated c1, w1)) as Hauth.
  { unfold AuthFilter.process.
    rewrite Hc1. rewrite lookup_insert_ne by done. rewrite lookup_insert_eq. simpl.
    rewrite Huid. simpl.
    destruct (users_db !! uid) as [profile|] eqn:Hfound; [|reflexivity].
    rewrite (Hno profile eq_refl). reflexivity. }
  unfold main_pipeline.
  apply (second_stage_raises _ _ _ _ _ _ _ _ _ _ Hval Hauth).
Qed.

(** A run of the pipeline returns only if the context holds a transaction
    with a non-empty string [user_id], a [btc_amount] that is not [<= 0] and
    a currency that normalizes to USD, EUR or GBP, the directory has a truthy
    profile for the user, and the store is missing, is not valid JSON or
    holds a JSON list. *)
Theorem run_returns_only_if `{Runtime} (users_db : gmap string value)
    (fx : FxService.t) (path : string) (context : Context) (w : World) :
  is_Returned (Pipeline.run (main_pipeline users_db fx path) context w).1 = true ->
  exists tx uid a profile held,
    context !! "transaction" = Some (OTx tx) /\
    user_id tx = VStr uid /\ uid <> "" /\
    btc_amount tx = Some a /\ (a <=? 0)%float = false /\
    ValidationFilter.normalize (base_currency tx) ∈ ValidationFilter.SUPPORTED /\
    users_db !! uid = Some profile /\ truthy profile = true /\
    StorageFilter.read_existing (files w !! path) = inr held.
Proof.
  intros Hret.
  destruct (ValidationFilter.process context w) as [[c1 | e1 c1] w1] eqn:Hval.
  - destruct (context !! "transaction") as [[tx | v] |] eqn:Htx.
    + destruct (validation_returned_inv context w tx c1 w1 Htx Hval)
        as (uid & a & Huid & Hne & Ha & Hpos & Hcode & _ & _).
      destruct (users_db !! uid) as [profile|] eqn:Hfound.
      * destruct (truthy profile) eqn:Htruthy.
        -- pose proof (authenticated_run users_db fx path context w tx uid a profile
                         Htx Huid Hne Ha Hpos Hcode Hfound Htruthy) as Hrun.
           destruct (StorageFilter.read_existing (files w !! path)) as [e | held]
             eqn:Hread.
           ++ destruct Hrun as (c & w' & Hrun). rewrite Hrun in Hret. discriminate.
           ++ exists tx, uid, a, profile, held. done.
        -- rewrite (unauthenticated_run users_db fx path context w tx uid c1 w1
                      Htx Huid Hval) in Hret; [discriminate|].
           intros p Hp. congruence.
      * rewrite (unauthenticated_run users_db fx path context w tx uid c1 w1
                   Htx Huid Hval) in Hret; [discriminate|].
        intros p Hp. congruence.
    + unfold ValidationFilter.process in Hval. rewrite Htx in Hval.
      destruct v; discriminate.
    + unfold ValidationFilter.process in Hval. rewrite Htx in Hval. discriminate.
  - unfold main_pipeline in Hret.
    rewrite (proj1 (first_stage_raises _ _ _ _ _ _ _ Hval)) in Hret. discriminate.
Qed.

(** The first transaction of the entry point returns, so it meets every
    condition. *)
Lemma run_returns_only_if_witness :
  exists tx uid a profile held,
    initial_context (mkTransaction (VStr "u123") (Some 0.01%float) "EUR")
      !! "transaction" = Some (OTx tx) /\
    user_id tx = VStr uid /\ uid <> "" /\
    btc_amount tx = Some a /\ (a <=? 0)%float = false /\
    @ValidationFilter.normalize example_runtime (base_currency tx)
      ∈ ValidationFilter.SUPPORTED /\
    USERS !! uid = Some profile /\ truthy profile = true /\
    StorageFilter.read_existing (files empty_world !! "transactions.json") = inr held.
Proof.
  apply (@run_returns_only_if example_runtime USERS FxService.default
           "transactions.json"
           (initial_context (mkTransaction (VStr "u123") (Some 0.01%float) "EUR"))
           empty_world).
  reflexivity.
Defined.

(** How a run of the pipeline can fail: with a refusal of validation or
    authentication, with the [AttributeError] of a transaction that is not a
    [Transaction] or of a store that is not a list, or with what the load of
    the store raises. *)
Lemma run_raised_cases `{Runtime} (users_db : gmap string value)
    (fx : FxService.t) (path : string) (context : Context) (w : World) e c w' :
  Pipeline.run (main_pipeline users_db fx path) context w = (Raised e c, w') ->
  refusal e \/ e = AttributeError \/ exists l, e = load_error_exn l.
Proof.
  intros Hrun. unfold refusal.
  destruct (ValidationFilter.process context w) as [[c1 | e1 c1] w1] eqn:Hval.
  - destruct (context !! "transaction") as [[tx | v] |] eqn:Htx.
    + destruct (validation_returned_inv context w tx c1 w1 Htx Hval)
        as (uid & a & Huid & Hne & Ha & Hpos & Hcode & _ & _).
      destruct (users_db !! uid) as [profile|] eqn:Hfound.
      * destruct (truthy profile) eqn:Htruthy.
        -- pose proof (authenticated_run users_db fx path context w tx uid a profile
                         Htx Huid Hne Ha Hpos Hcode Hfound Htruthy) as Hcase.
           destruct (StorageFilter.read_existing (files w !! path)) as [e' | held]
             eqn:Hread.
           ++ destruct Hcase as (c' & w'' & Hcase). rewrite Hcase in Hrun.
              inversion Hrun; subst. apply read_existing_error in Hread. tauto.
           ++ destruct Hcase as (c' & w'' & Hcase). rewrite Hcase in Hrun.
              discriminate.
        -- rewrite (unauthenticated_run users_db fx path context w tx uid c1 w1
                      Htx Huid Hval) in Hrun.
           ++ inversion Hrun; subst. tauto.
           ++ intros p Hp. congruence.
      * rewrite (unauthenticated_run users_db fx path context w tx uid c1 w1
                   Htx Huid Hval) in Hrun.
        -- inversion Hrun; subst. tauto.
        -- intros p Hp. congruence.
    + unfold ValidationFilter.process in Hval. rewrite Htx in Hval.
      destruct v; discriminate.
    + unfold ValidationFilter.process in Hval. rewrite Htx in Hval. discriminate.
  - unfold main_pipeline in Hrun.
    rewrite (proj1 (first_stage_raises _ _ _ _ _ _ _ Hval)) in Hrun.
    inversion Hrun; subst.
    destruct (validation_raised_inv context w e c w' Hval) as [_ He].
    tauto.
Qed.

(** Behind validation the defensive branches are dead code: no run of the
    pipeline fails with the unsupported-currency error of the rate service
    or of the fee stage, or with a [KeyError]. *)
Theorem defensive_errors_unreachable `{Runtime} (users_db : gmap string value)
    (fx : FxService.t) (path : string) (context : Context) (w : World) e c w' :
  Pipeline.run (main_pipeline users_db fx path) context w = (Raised e c, w') ->
  (forall code, e <> FxService.UnsupportedCurrency code) /\
  e <> FeeFilter.UnsupportedCurrency /\
  (forall key, e <> KeyError key).
Proof.
  intros Hrun.
  destruct (run_raised_cases users_db fx path context w e c w' Hrun)
    as [[-> | [-> | [-> | [[code' ->] | ->]]]] | [-> | [[| | digits] ->]]];
    (split; [intros code|split; [|intros key]]); discriminate.
Qed.

(** A currency that validation refuses: the run fails with validation's
    error, not with the rate service's. *)
Lemma defensive_errors_unreachable_witness :
  exists e c w',
    Pipeline.run
      (@main_pipeline example_runtime USERS FxService.default "transactions.json")
      (initial_context (mkTransaction (VStr "u123") (Some 0.01%float) "yen"))
      empty_world
    = (Raised e c, w') /\
    e = ValueError "Unsupported base currency: YEN" /\
    (forall code, e <> FxService.UnsupportedCurrency code) /\
    e <> FeeFilter.UnsupportedCurrency /\
    (forall key, e <> KeyError key).
Proof.
  do 3 eexists. split; [reflexivity|]. split; [reflexivity|].
  eapply (@defensive_errors_unreachable example_runtime USERS FxService.default
            "transactions.json"
            (initial_context (mkTransaction (VStr "u123") (Some 0.01%float) "yen"))
            empty_world).
  reflexivity.
Defined.

(** ** Failures and the store *)

(** A run in which validation, authentication, conversion or the fee
    computation raises, and a run that finds a store it cannot append to
    (the load raises, or what is loaded is not a list), does not return and
    leaves every file as it was. *)
Theorem failure_before_write_persists_nothing `{Runtime}
    (users_db : gmap string value) (fx : FxService.t) (path : string)
    (context : Context) (w : World) :
  (is_Returned
     (Pipeline.run_filters
        [ValidationFilter.process; AuthFilter.process users_db;
         TransformationFilter.process fx; FeeFilter.process fx] context w).1 = false ->
   is_Returned (Pipeline.run (main_pipeline users_db fx path) context w).1 = false /\
   files (Pipeline.run (main_pipeline users_db fx path) context w).2 = files w) /\
  (forall e,
      StorageFilter.read_existing (files w !! path) = inl e ->
      is_Returned (Pipeline.run (main_pipeline users_db fx path) context w).1 = false /\
      files (Pipeline.run (main_pipeline users_db fx path) context w).2 = files w).
Proof.
  pose proof (four_stages_files users_db fx context w) as Hfiles.
  rewrite main_run_unfold.
  destruct (Pipeline.run_filters _ context w) as [[c4 | e4 c4] w4]; simpl in *.
  - split; [discriminate|].
    intros e Hread. rewrite <- Hfiles in Hread.
    unfold StorageFilter.process. simpl.
    destruct (c4 !! "transaction") as [[tx | v] |]; simpl; [|done..].
    rewrite Hread. simpl. done.
  - split; done.
Qed.

(** A store that holds a JSON object instead of a list: the storage stage
    raises on [append], and the file is as it was. *)
Lemma failure_before_write_persists_nothing_witness :
  let w := mkWorld (<["transactions.json" := Parsed (VDict [])]> ∅) 0 in
  let r := Pipeline.run
             (@main_pipeline example_runtime USERS FxService.default "transactions.json")
             (initial_context (mkTransaction (VStr "u123") (Some 0.01%float) "EUR")) w in
  is_Returned r.1 = false /\ files r.2 = files w.
Proof.
  intros w r.
  apply (proj2 (@failure_before_write_persists_nothing example_runtime USERS
                  FxService.default "transactions.json"
                  (initial_context (mkTransaction (VStr "u123") (Some 0.01%float) "EUR"))
                  w) AttributeError).
  reflexivity.
Defined.

(** A run that ends with a refusal has not reached the storage stage. *)
Lemma refused_run_files `{Runtime} (users_db : gmap string value)
    (fx : FxService.t) (path : string) (context : Context) (w : World) e c w' :
  Pipeline.run (main_pipeline users_db fx path) context w = (Raised e c, w') ->
  refusal e ->
  files w' = files w.
Proof.
  intros Hrun Hrefusal.
  pose proof (four_stages_files users_db fx context w) as Hfiles.
  rewrite main_run_unfold in Hrun.
  destruct (Pipeline.run_filters _ context w) as [[c4 | e4 c4] w4]; simpl in *.
  - destruct (StorageFilter.process path c4 w4) as [[c5 | e5 c5] w5] eqn:Hstore;
      [discriminate|].
    inversion Hrun; subst.
    destruct (refusal_not_storage e Hrefusal) as (Htype & _).
    destruct (storage_raised_before_write path c4 w4 e c w' Hstore Htype) as [Hsame _].
    congruence.
  - inversion Hrun; subst. exact Hfiles.
Qed.

(** ** The result of a successful run, in full *)



(** ** The sink across runs that may be refused *)

(** After any sequence of runs in which every failure is a refusal of
    validation or authentication, against a store that can be read, the store
    holds what it held followed by one record per run that returned, in run
    order: a refused run has added nothing and has removed nothing. *)
Theorem sink_skips_refused_runs `{Runtime} (users_db : gmap string value)
    (fx : FxService.t) (path : string) (contexts : list Context) (w : World)
    (held : list value) :
  StorageFilter.read_existing (files w !! path) = inr held ->
  Forall (fun o => match o with Returned _ => True | Raised e _ => refusal e end)
    (Pipeline.run_each (main_pipeline users_db fx path) contexts w).1 ->
  exists records,
    StorageFilter.read_existing
      (files (Pipeline.run_each (main_pipeline users_db fx path) contexts w).2 !! path)
      = inr (held ++ records) /\
    Forall2 StorageFilter.is_record_of records
      (List.filter is_Returned
         (Pipeline.run_each (main_pipeline users_db fx path) contexts w).1).
Proof.
  revert w held.
  induction contexts as [|context rest IH]; intros w held Hheld Hall.
  - exists []. simpl. rewrite app_nil_r. split; [exact Hheld | constructor].
  - simpl in Hall |- *.
    destruct (Pipeline.run (main_pipeline users_db fx path) context w)
      as [o w1] eqn:Hrun.
    specialize (IH w1).
    destruct (Pipeline.run_each (main_pipeline users_db fx path) rest w1)
      as [os w2] eqn:Heach.
    simpl in IH, Hall |- *. inversion Hall as [|? ? Ho Hos]; subst.
    destruct o as [c | e c]; simpl.
    + destruct (run_appends users_db fx path context w held c w1 Hheld Hrun)
        as (record & Hread1 & Hrec).
      destruct (IH (held ++ [record]) Hread1 Hos) as (records & Hread2 & Hall2).
      exists (record :: records). rewrite <- app_assoc in Hread2.
      split; [exact Hread2 | constructor; assumption].
    + assert (files w1 = files w) as Hfiles.
      { eapply refused_run_files; [exact Hrun | exact Ho]. }
      rewrite <- Hfiles in Hheld.
      destruct (IH held Hheld Hos) as (records & Hread2 & Hall2).
      exists records. split; assumption.
Qed.

(** Three runs, the second for an unknown user: two records. *)
Lemma sink_skips_refused_runs_witness :
  exists records,
    StorageFilter.read_existing
      (files (Pipeline.run_each
                (@main_pipeline example_runtime USERS FxService.default "transactions.json")
                [initial_context (mkTransaction (VStr "u123") (Some 0.01%float) "EUR");
                 initial_context (mkTransaction (VStr "ghost") (Some 1%float) "USD");
                 initial_context (mkTransaction (VStr "u456") (Some 0.015%float) "USD")]
                empty_world).2 !! "transactions.json")
      = inr records /\
    Forall2 StorageFilter.is_record_of records
      (List.filter is_Returned
         (Pipeline.run_each
            (@main_pipeline example_runtime USERS FxService.default "transactions.json")
            [initial_context (mkTransaction (VStr "u123") (Some 0.01%float) "EUR");
             initial_context (mkTransaction (VStr "ghost") (Some 1%float) "USD");
             initial_context (mkTransaction (VStr "u456") (Some 0.015%float) "USD")]
            empty_world).1).
Proof.
  apply (@sink_skips_refused_runs example_runtime USERS FxService.default
           "transactions.json"
           [initial_context (mkTransaction (VStr "u123") (Some 0.01%float) "EUR");
            initial_context (mkTransaction (VStr "ghost") (Some 1%float) "USD");
            initial_context (mkTransaction (VStr "u456") (Some 0.015%float) "USD")]
           empty_world []).
  - reflexivity.
  - vm_compute.
    constructor; [exact I|]. constructor; [do 4 right; reflexivity|].
    constructor; [exact I|]. constructor.
Defined.

(** ** Pipelines compose *)

(** Running the filters of two lists in one loop is running the first list
    and, if it returns, the second on what it returned; if the first raises,
    the second is not run. *)
Theorem run_filters_app (first second : list Filter) (context : Context) (w : World) :
  Pipeline.run_filters (first ++ second) context w =
  match Pipeline.run_filters first context w with
  | (Returned c, w') => Pipeline.run_filters second c w'
  | (Raised e c, w') => (Raised e c, w')
  end.
Proof.
  revert context w. induction first as [|f rest IH]; intros context w; simpl.
  - reflexivity.
  - destruct (f context w) as [[c | e c] w']; [apply IH | reflexivity].
Qed.

(** ** A NaN amount *)







(** ** What a stage that raises leaves behind *)

(** A stage that raises has written no timestamp. Authentication,
    conversion and storage leave the context exactly as it was; validation
    has at most normalized the currency of the transaction (when it refuses
    the code); the fee stage has at most written [fee] (when the amount to
    add it to is missing or is not a number). Only storage has read the clock,
    once. *)
Theorem raising_stage_leaves `{Runtime} (users_db : gmap string value)
    (fx : FxService.t) (path : string) (context : Context) (w : World) e c w' :
  (ValidationFilter.process context w = (Raised e c, w') ->
   w' = w /\
   (c = context \/
    exists tx,
      context !! "transaction" = Some (OTx tx) /\
      e = ValidationFilter.UnsupportedCurrency
            (ValidationFilter.normalize (base_currency tx)) /\
      c = <["transaction" :=
              OTx (mkTransaction (user_id tx) (btc_amount tx)
                     (ValidationFilter.normalize (base_currency tx)))]> context)) /\
  (AuthFilter.process users_db context w = (Raised e c, w') ->
   w' = w /\ c = context) /\
  (TransformationFilter.process fx context w = (Raised e c, w') ->
   w' = w /\ c = context) /\
  (FeeFilter.process fx context w = (Raised e c, w') ->
   w' = w /\
   (c = context \/
    exists fee,
      e <> FeeFilter.UnsupportedCurrency /\
      c = <["fee" := OVal (VFloat fee)]> context)) /\
  (StorageFilter.process path context w = (Raised e c, w') ->
   ticks w' = S (ticks w) /\ c = context).
Proof.
  split; [|split; [|split; [|split]]].
  - unfold ValidationFilter.process.
    destruct (context !! "transaction") as [[tx | v] |] eqn:Htx.
    + destruct (negb (truthy (user_id tx)) || negb (is_str (user_id tx))).
      * intros Heq; inversion Heq; subst. tauto.
      * destruct (btc_amount tx) as [a|] eqn:Ha.
        -- destruct (a <=? 0)%float.
           ++ intros Heq; inversion Heq; subst. tauto.
           ++ simpl. destruct (ValidationFilter.supported _); [discriminate|].
              intros Heq; inversion Heq; subst. split; [done|].
              right. exists tx. rewrite Ha. done.
        -- intros Heq; inversion Heq; subst. tauto.
    + destruct v; intros Heq; inversion Heq; subst; tauto.
    + intros Heq; inversion Heq; subst. tauto.
  - intros Heq. destruct (auth_raises_unchanged users_db context w e c w' Heq). done.
  - unfold TransformationFilter.process.
    destruct (context !! "transaction") as [[tx | v] |];
      [|intros Heq; inversion Heq; done..].
    destruct (btc_amount tx) as [a|]; [|intros Heq; inversion Heq; done].
    destruct (FxService.btc_to_currency fx a (base_currency tx));
      [intros Heq; inversion Heq; done | discriminate].
  - unfold FeeFilter.process.
    destruct (context !! "transaction") as [[tx | v] |];
      [|intros Heq; inversion Heq; subst; tauto..].
    destruct (FeeFilter.rounded_fee fx (base_currency tx)) as [e' | fee];
      [intros Heq; inversion Heq; subst; tauto|].
    destruct (_ !! "fiat_amount") as [fiat|].
    + destruct (FeeFilter.plus_fee fiat fee) as [e' | sum] eqn:Hplus; [|discriminate].
      intros Heq; inversion Heq; subst. split; [done|]. right. exists fee.
      split; [|done].
      unfold FeeFilter.plus_fee in Hplus.
      destruct fiat as [t | v]; [inversion Hplus; done|].
      destruct v; try (inversion Hplus; done).
      unfold float_of_int in Hplus.
      destruct (is_infinity _); inversion Hplus; done.
    + intros Heq; inversion Heq; subst. split; [done|]. right. exists fee. done.
  - unfold StorageFilter.process. simpl.
    destruct (context !! "transaction") as [[tx | v] |];
      [|intros Heq; inversion Heq; done..].
    destruct (StorageFilter.read_existing (files w !! path));
      [intros Heq; inversion Heq; done|].
    destruct (StorageFilter.ledger_record _ tx context);
      [discriminate | intros Heq; inversion Heq; done].
Qed.

(** ** Validating twice *)

(** Validating a context that validation has returned succeeds again and
    changes nothing but the validation timestamp, provided normalizing the
    normalized currency code gives the same code. *)
Theorem validation_again `{Runtime} (context : Context) (w : World)
    (tx : Transaction) c1 w1 :
  context !! "transaction" = Some (OTx tx) ->
  ValidationFilter.normalize (ValidationFilter.normalize (base_currency tx))
    = ValidationFilter.normalize (base_currency tx) ->
  ValidationFilter.process context w = (Returned c1, w1) ->
  ValidationFilter.process c1 w1
    = (Returned (<["validated_at" := OVal (VStr (utcnow_isoformat (ticks w1)))]> c1),
       mkWorld (files w1) (S (ticks w1))).
Proof.
  intros Htx Hidem Hval.
  destruct (validation_returned_inv context w tx c1 w1 Htx Hval)
    as (uid & a & Huid & Hne & Ha & Hpos & Hcode & Hc1 & Hw1).
  set (tx1 := mkTransaction (user_id tx) (btc_amount tx)
                (ValidationFilter.normalize (base_currency tx))) in *.
  assert (c1 !! "transaction" = Some (OTx tx1)) as Htx1.
  { rewrite Hc1. lookup_context. reflexivity. }
  rewrite (validation_returns c1 w1 tx1 uid a Htx1 Huid Hne Ha Hpos);
    [|simpl; rewrite Hidem; exact Hcode].
  simpl. rewrite Hidem. fold tx1.
  rewrite (insert_id c1 "transaction" (OTx tx1) Htx1). reflexivity.
Qed.

(** The currency ["eur "]: validated once it is ["EUR"], validated again it
    still is. *)
Lemma validation_again_witness :
  @ValidationFilter.process example_runtime
    (<["validated_at" := OVal (VStr "2024-01-01T00:00:00")]>
       (<["transaction" := OTx (mkTransaction (VStr "u123") (Some 0.01%float) "EUR")]>
          (initial_context (mkTransaction (VStr "u123") (Some 0.01%float) "eur "))))
    (mkWorld ∅ 1)
  = (Returned
       (<["validated_at" := OVal (VStr "2024-01-01T00:00:01")]>
          (<["validated_at" := OVal (VStr "2024-01-01T00:00:00")]>
             (<["transaction" := OTx (mkTransaction (VStr "u123") (Some 0.01%float) "EUR")]>
                (initial_context (mkTransaction (VStr "u123") (Some 0.01%float) "eur "))))),
     mkWorld ∅ 2).
Proof.
  apply (@validation_again example_runtime
           (initial_context (mkTransaction (VStr "u123") (Some 0.01%float) "eur "))
           empty_world
           (mkTransaction (VStr "u123") (Some 0.01%float) "eur ")).
  - reflexivity.
  - reflexivity.
  - reflexivity.
Defined.

(** ** One set of currencies *)

(** The three places that decide whether a currency is supported agree:
    validation accepts a code exactly when the rate service converts it, and
    exactly when the fee stage has a fee for it. *)
Theorem currency_checks_agree (fx : FxService.t) (btc_amount : float) (code : string) :
  (code ∈ ValidationFilter.SUPPORTED <->
   exists q, FxService.btc_to_currency fx btc_amount code = inr q) /\
  (code ∈ ValidationFilter.SUPPORTED <->
   exists fee, FeeFilter.rounded_fee fx code = inr fee).
Proof.
  rewrite <- supported_elem_of.
  unfold ValidationFilter.supported, ValidationFilter.SUPPORTED,
    FxService.btc_to_currency, FeeFilter.rounded_fee, FeeFilter.fee_in. simpl.
  destruct (String.eqb code "USD"); simpl; [split; split; eauto|].
  destruct (String.eqb code "EUR"); simpl; [split; split; eauto|].
  destruct (String.eqb code "GBP"); simpl; [split; split; eauto|].
  split; split; try discriminate; intros [? ?]; discriminate.
Qed.

(** ** The base class *)

(** A pipeline that holds a filter of the base class, whose [process] is not
    implemented, never returns: it raises at that filter or before it. *)
Theorem unimplemented_filter_never_returns (before after : list Filter)
    (context : Context) (w : World) :
  is_Returned (Pipeline.run (before ++ Filter_process :: after) context w).1 = false.
Proof.
  unfold Pipeline.run.
  assert (is_Returned
            (Pipeline.run_filters (before ++ Filter_process :: after) context w).1
          = false) as Hloop.
  { revert context w. induction before as [|f rest IH]; intros context w; simpl.
    - reflexivity.
    - destruct (f context w) as [[c | e c] w']; [apply IH | reflexivity]. }
  destruct (Pipeline.run_filters _ context w) as [[c | e c] w'];
    [discriminate | reflexivity].
Qed.
